(** * Dock Otter: the reconciliation engine of [main.go]

    A shallow embedding of the Dokploy-to-Pangolin bridge.  Go strings are
    byte strings ([string], one [ascii] per byte, [len] is [String.length]),
    Go [int] values that are only compared or copied are [Z], the
    [map[string]bool] ledger is a [gmap string bool] read with Go's
    zero-value default, and a method on [*DockOtter] is a state transformer
    over the [DockOtter] record.  The two resty clients are represented by
    the history of the calls made on them: one entry for each [Get] or
    [Post] the program calls, with the URL the program passes.  What resty
    does below such a call (the retries the clients are set up with, the
    redirects it follows) is not modelled, and neither is the GET that
    [main --health-check] makes through [net/http], which never builds a
    [DockOtter].  What a call returns is a function of the history.  [slog]
    output is not modelled, except the closing "Sync completed" record that
    carries the counters of a pass. *)

From Stdlib Require Import ZArith Ascii String List Bool Lia.
From stdpp Require Import base relations strings gmap.
Import ListNotations.

Local Open Scope Z_scope.

(** ** Go's [strings] package, as far as [generateResourceName] uses it *)

Module strings.

(** [c < utf8.RuneSelf] *)
Definition isASCIIByte (c : ascii) : bool := (nat_of_ascii c <? 128)%nat.

Fixpoint isASCII (s : string) : bool :=
  match s with
  | EmptyString => true
  | String c s' => isASCIIByte c && isASCII s'
  end.

(** ['A' <= c && c <= 'Z'], then [c += 'a' - 'A'] *)
Definition lowerByte (c : ascii) : ascii :=
  let n := nat_of_ascii c in
  if ((65 <=? n) && (n <=? 90))%nat then ascii_of_nat (n + 32) else c.

Fixpoint mapBytes (f : ascii -> ascii) (s : string) : string :=
  match s with
  | EmptyString => EmptyString
  | String c s' => String (f c) (mapBytes f s')
  end.

(** [strings.ToLower]: the byte loop of the ASCII fast path; a string with
    a byte of 128 or more goes through [Map(unicode.ToLower, s)], whose
    case tables belong to the Go runtime and are taken as [unicodeLower]. *)
Definition ToLower (unicodeLower : string -> string) (s : string) : string :=
  if isASCII s then mapBytes lowerByte s else unicodeLower s.

(** [strings.ReplaceAll old new s] for a non-empty [old]: occurrences are
    taken left to right without overlap.  [skip] counts the bytes of the
    occurrence being replaced that are still to be dropped. *)
Fixpoint replaceFrom (old new : string) (skip : nat) (s : string) : string :=
  match s with
  | EmptyString => EmptyString
  | String c s' =>
      match skip with
      | S k => replaceFrom old new k s'
      | O =>
          if String.prefix old s
          then new +:+ replaceFrom old new (String.length old - 1) s'
          else String c (replaceFrom old new O s')
      end
  end.

(** With [old = new] Go returns [s] itself.  The empty pattern (Go inserts
    [new] around every UTF-8 sequence) is never used by the program and is
    left as the identity. *)
Definition ReplaceAll (s old new : string) : string :=
  if String.eqb old new then s
  else match old with
       | EmptyString => s
       | String _ _ => replaceFrom old new O s
       end.

End strings.


(** ** Data model *)

(** [Config]; a [time.Duration] is its count of nanoseconds. *)
Record Config := mkConfig {
  DokployURL : string;
  DokployAPIKey : string;
  DokployToken : string;
  DokploySession : string;
  PangolinURL : string;
  PangolinAPIKey : string;
  PangolinToken : string;
  PollInterval : Z;
  RetryAttempts : Z;
  RetryDelay : Z;
  RunOnce : bool;
  ForceSync : bool
}.

Record DokployDomain := mkDomain {
  Domain_DomainID : string;
  Domain_Host : string;
  Domain_Path : string;
  Domain_Port : Z;
  Domain_HTTPS : bool;
  Domain_Certificate : string
}.

Record DokployApp := mkApp {
  App_ApplicationID : string;
  App_ComposeID : string;
  App_Name : string;
  App_AppName : string;
  App_Description : string;
  App_Domains : list DokployDomain;
  App_Port : Z;
  App_Status : string;
  App_ProjectID : string
}.

Record DokployProject := mkProject {
  Project_ProjectID : string;
  Project_Name : string;
  Project_Description : string;
  Project_Applications : list DokployApp;
  Project_Compose : list DokployApp
}.

Record Target := mkTarget {
  Target_Hostname : string;
  Target_Port : Z;
  Target_Method : string;
  Target_Enabled : bool;
  Target_Path : string
}.

Record ProxyResource := mkProxyResource {
  Resource_Name : string;
  Resource_Protocol : string;
  Resource_FullDomain : string;
  Resource_SSL : bool;
  Resource_Enabled : bool;
  Resource_Targets : list Target
}.

Record PangolinBlueprint := mkBlueprint {
  ProxyResources : list ProxyResource
}.

(** Go [error] values.  Each [fmt.Errorf] of the program is a constructor;
    a [%w] verb is an argument of type [error], and [lastErr], which is
    [nil] until a failure is recorded, is an [option error].  [Foreign] is
    an error made by resty, [encoding/json] or yaml.v3. *)
#[warnings="-register-all"]
Inductive error : Type :=
| Foreign (msg : string)
| DomainHostEmpty
| NoPortAvailable (appName host : string)
| FailedToCreateBlueprint (err : error)
| EndpointStatus (endpoint : string) (status : Z)
| AllEndpointsFailed (lastErr : option error)
| AllAttemptsFailed (attempts : Z) (lastErr : option error)
| FailedToMarshalBlueprint (err : error)
| PangolinStatus (status : Z) (response : string)
| FailedToGetProjects (err : error)
| ConfigError (msg : string).

(** What a resty request returns: [err != nil], or a response. *)
Inductive HttpResult : Type :=
| HttpError (err : error)
| HttpResponse (StatusCode : Z) (Body : string).

Inductive Client : Type := dokployClient | pangolinClient.

Inductive Request : Type :=
| GET (c : Client) (url : string)
| POST (c : Client) (url body : string).

(** The history of a process: the calls made on the two clients ([Sent],
    one for each [Get] or [Post] call, whatever resty puts on the wire for
    it), [time.Sleep] calls, every return of [createBlueprint] with the
    blueprint it was given and its result, and the counters logged at the
    end of a pass. *)
Inductive Event : Type :=
| Sent (r : Request)
| Slept (d : Z)
| CreateBlueprintReturned (blueprint : PangolinBlueprint) (err : option error)
| SyncCompleted (processed skipped errors : Z).

(** [DockOtter]: the configuration, the ledger, and the history standing
    for the two clients. *)
Record DockOtter := mkDockOtter {
  config : Config;
  processedApps : gmap string bool;
  history : list Event
}.

Definition NewDockOtter (cfg : Config) : DockOtter :=
  {| config := cfg; processedApps := ∅; history := [] |}.

(** [d.processedApps[name]]: a missing key reads as [false]. *)
Definition isProcessed (d : DockOtter) (name : string) : bool :=
  default false (processedApps d !! name).

(** [d.processedApps[name] = true] *)
Definition markProcessed (name : string) (d : DockOtter) : DockOtter :=
  {| config := config d;
     processedApps := <[name := true]> (processedApps d);
     history := history d |}.

Definition record (e : Event) (d : DockOtter) : DockOtter :=
  {| config := config d;
     processedApps := processedApps d;
     history := history d ++ [e] |}.

(** Go's [int] is 64 bits wide here; [n++] wraps. *)
Definition wrapInt (z : Z) : Z := (z + 2 ^ 63) mod 2 ^ 64 - 2 ^ 63.
Definition incr (n : Z) : Z := wrapInt (n + 1).

(** [validateConfig]; the warning about missing Dokploy credentials is
    only logged. *)
Definition validateConfig (cfg : Config) : option error :=
  if String.eqb (DokployURL cfg) "" then Some (ConfigError "DOKPLOY_URL is required")
  else if String.eqb (PangolinURL cfg) "" then Some (ConfigError "PANGOLIN_URL is required")
  else
    let pangolinAuth :=
      negb (String.eqb (PangolinToken cfg) "") || negb (String.eqb (PangolinAPIKey cfg) "") in
    if negb pangolinAuth
    then Some (ConfigError "Pangolin authentication required (PANGOLIN_TOKEN or PANGOLIN_API_KEY)")
    else if negb (RunOnce cfg) && (PollInterval cfg <? 5 * 1000000000)
    then Some (ConfigError "POLL_INTERVAL must be at least 5 seconds")
    else if (RetryAttempts cfg <? 1) || (RetryAttempts cfg >? 10)
    then Some (ConfigError "RETRY_ATTEMPTS must be between 1 and 10")
    else None.

(** ** A state monad over [DockOtter] *)

Definition M (A : Type) : Type := DockOtter -> A * DockOtter.

Definition ret {A} (a : A) : M A := fun d => (a, d).

Definition bind {A B} (m : M A) (k : A -> M B) : M B :=
  fun d => let (a, d') := m d in k a d'.

Notation "'let*' x ':=' m 'in' k" := (bind m (fun x => k))
  (at level 10, x name, m at level 100, k at level 200).
Notation "m ';;;' k" := (bind m (fun _ => k))
  (at level 100, k at level 200, right associativity).

Definition getConfig : M Config := fun d => (config d, d).
Definition emit (e : Event) : M unit := fun d => (tt, record e d).

(** ** Fixtures for concrete runs *)

Module Scenario.

(** No name below has a byte outside ASCII. *)
Definition lower (s : string) : string := s.

Definition cfg : Config :=
  {| DokployURL := "http://dokploy:3000"; DokployAPIKey := ""; DokployToken := "";
     DokploySession := ""; PangolinURL := "http://pangolin:3001";
     PangolinAPIKey := ""; PangolinToken := "t"; PollInterval := 30000000000;
     RetryAttempts := 3; RetryDelay := 5000000000; RunOnce := false;
     ForceSync := false |}.

Definition cfgForce : Config :=
  {| DokployURL := "http://dokploy:3000"; DokployAPIKey := ""; DokployToken := "";
     DokploySession := ""; PangolinURL := "http://pangolin:3001";
     PangolinAPIKey := ""; PangolinToken := "t"; PollInterval := 30000000000;
     RetryAttempts := 3; RetryDelay := 5000000000; RunOnce := true;
     ForceSync := true |}.

Definition domain (host : string) : DokployDomain :=
  {| Domain_DomainID := "d"; Domain_Host := host; Domain_Path := "/";
     Domain_Port := 0; Domain_HTTPS := true; Domain_Certificate := "" |}.

Definition app (name : string) (domains : list DokployDomain) : DokployApp :=
  {| App_ApplicationID := "a"; App_ComposeID := ""; App_Name := name;
     App_AppName := "svc"; App_Description := ""; App_Domains := domains;
     App_Port := 0; App_Status := "done"; App_ProjectID := "p" |}.

(** One application with a good and a hostless binding, one compose
    application with a good binding. *)
Definition web : DokployApp := app "web" [domain "a.example.com"; domain ""].
Definition jobs : DokployApp := app "jobs" [domain "b.example.com"].

Definition inventory : list DokployProject :=
  [ {| Project_ProjectID := "p"; Project_Name := "main"; Project_Description := "";
       Project_Applications := [web]; Project_Compose := [jobs] |} ].

Definition yaml (bp : PangolinBlueprint) : error + string := inr "yaml".

Definition decode (body : string) : error + list DokployProject :=
  if String.eqb body "inventory" then inr inventory
  else if String.eqb body "[]" then inr []
  else inl (Foreign "invalid character").

(** Both systems answer 500. *)
Definition down (h : list Event) (r : Request) : HttpResult :=
  HttpResponse 500 "down".

(** The source knows its second candidate only and would answer the empty
    inventory on the third; the target accepts every blueprint. *)
Definition up (h : list Event) (r : Request) : HttpResult :=
  match r with
  | GET _ url =>
      if String.eqb url "http://dokploy:3000/api/project/all" then HttpResponse 200 "inventory"
      else if String.eqb url "http://dokploy:3000/api/project" then HttpResponse 200 "[]"
      else HttpResponse 404 "not found"
  | POST _ _ _ => HttpResponse 201 "created"
  end.

(** A trailing dot in a host and an application named after a host. *)
Definition shop : DokployApp := app "shop" [domain "example.com."].
Definition shadow : DokployApp := app "shop-example.com" [domain ""].

(** What the acceptance of one blueprint adds to the history. *)
Definition accepted (name host : string) : list Event :=
  [ Sent (POST pangolinClient "http://pangolin:3001/v1/blueprints" "yaml");
    CreateBlueprintReturned
      {| ProxyResources :=
          [ {| Resource_Name := name;
               Resource_Protocol := "http";
               Resource_FullDomain := host;
               Resource_SSL := true;
               Resource_Enabled := true;
               Resource_Targets :=
                 [ {| Target_Hostname := "svc"; Target_Port := 443;
                      Target_Method := "https"; Target_Enabled := true;
                      Target_Path := "/" |} ] |} ] |}
      None ].

(** The state after the binding of [shop] was published. *)
Definition afterShop : DockOtter :=
  {| config := cfg;
     processedApps := {[ "shop-example-com-" := true ]};
     history := accepted "shop-example-com-" "example.com." |}.

(** The state after a pass over [inventory] from there. *)
Definition afterPass : DockOtter :=
  {| config := cfg;
     processedApps :=
       <[ "jobs-b-example-com" := true ]>
         (<[ "web-a-example-com" := true ]> {[ "shop-example-com-" := true ]});
     history :=
       accepted "shop-example-com-" "example.com."
       ++ [ Sent (GET dokployClient "http://dokploy:3000/api/projects");
            Sent (GET dokployClient "http://dokploy:3000/api/project/all") ]
       ++ accepted "web-a-example-com" "a.example.com"
       ++ accepted "jobs-b-example-com" "b.example.com"
       ++ [ SyncCompleted 2 0 1 ] |}.

(** What the reader leaves when the source is up, and when it is down. *)
Definition fetched : DockOtter :=
  {| config := cfg;
     processedApps := ∅;
     history := [ Sent (GET dokployClient "http://dokploy:3000/api/projects");
                  Sent (GET dokployClient "http://dokploy:3000/api/project/all") ] |}.

Definition unfetched : DockOtter :=
  {| config := cfg;
     processedApps := ∅;
     history := [ Sent (GET dokployClient "http://dokploy:3000/api/projects");
                  Sent (GET dokployClient "http://dokploy:3000/api/project/all");
                  Sent (GET dokployClient "http://dokploy:3000/api/project");
                  Sent (GET dokployClient "http://dokploy:3000/api/applications") ] |}.

(** A ledger that already holds the first name of [web], override on. *)
Definition forced : DockOtter :=
  {| config := cfgForce;
     processedApps := {[ "web-a-example-com" := true ]};
     history := [] |}.

End Scenario.

(** ** Configuration from the environment *)

Section Environment.

(** [os.Getenv] (the empty string for a variable that is not set) and the
    parsers of [strconv] and [time], [None] standing for their errors. *)
Variable Getenv : string -> string.
Variable Atoi : string -> option Z.
Variable ParseDuration : string -> option Z.
Variable ParseBool : string -> option bool.

(** [getEnv] *)
Definition getEnv (key defaultValue : string) : string :=
  let value := Getenv key in
  if negb (String.eqb value "") then value else defaultValue.

(** [getIntEnv] *)
Definition getIntEnv (key : string) (defaultValue : Z) : Z :=
  let value := Getenv key in
  if negb (String.eqb value "")
  then match Atoi value with Some intValue => intValue | None => defaultValue end
  else defaultValue.

(** [getDurationEnv] *)
Definition getDurationEnv (key : string) (defaultValue : Z) : Z :=
  let value := Getenv key in
  if negb (String.eqb value "")
  then match ParseDuration value with Some duration => duration | None => defaultValue end
  else defaultValue.

(** [getBoolEnv] *)
Definition getBoolEnv (key : string) (defaultValue : bool) : bool :=
  let value := Getenv key in
  if negb (String.eqb value "")
  then match ParseBool value with Some boolValue => boolValue | None => defaultValue end
  else defaultValue.

(** [loadConfig] *)
Definition loadConfig : Config :=
  {| DokployURL := getEnv "DOKPLOY_URL" "http://dokploy:3000";
     DokployAPIKey := getEnv "DOKPLOY_API_KEY" "";
     DokployToken := getEnv "DOKPLOY_TOKEN" "";
     DokploySession := getEnv "DOKPLOY_SESSION" "";
     PangolinURL := getEnv "PANGOLIN_URL" "http://pangolin:3001";
     PangolinAPIKey := getEnv "PANGOLIN_API_KEY" "";
     PangolinToken := getEnv "PANGOLIN_TOKEN" "";
     PollInterval := getDurationEnv "POLL_INTERVAL" (30 * 1000000000);
     RetryAttempts := getIntEnv "RETRY_ATTEMPTS" 3;
     RetryDelay := getDurationEnv "RETRY_DELAY" (5 * 1000000000);
     RunOnce := getBoolEnv "RUN_ONCE" false;
     ForceSync := getBoolEnv "FORCE_SYNC" false |}.

(** What a variable's text counts as: nothing when it is empty or does not
    parse. *)
Definition parsed {A} (parse : string -> option A) (key : string) : option A :=
  if String.eqb (Getenv key) "" then None else parse (Getenv key).

End Environment.

(** ** Credentials *)

(** [getDokployAuthType] *)
Definition getDokployAuthType (d : DockOtter) : string :=
  if negb (String.eqb (DokployAPIKey (config d)) "") then "API key"
  else if negb (String.eqb (DokployToken (config d)) "") then "Bearer token"
  else if negb (String.eqb (DokploySession (config d)) "") then "Session cookie"
  else "none".

(** [getPangolinAuthType] *)
Definition getPangolinAuthType (d : DockOtter) : string :=
  if negb (String.eqb (PangolinToken (config d)) "") then "Bearer token"
  else if negb (String.eqb (PangolinAPIKey (config d)) "") then "Bearer token (from API key)"
  else "none".

(** [NewDockOtter], the headers it sets on the Dokploy client; [SetHeader]
    is an assignment in a map. *)
Definition dokployHeaders (cfg : Config) : gmap string string :=
  let h := <["Accept" := "application/json"]> (<["User-Agent" := "dock-otter/1.0"]> ∅) in
  let h := if negb (String.eqb (DokployAPIKey cfg) "")
           then <["X-API-Key" := DokployAPIKey cfg]> h else h in
  let h := if negb (String.eqb (DokployToken cfg) "")
           then <["Authorization" := "Bearer " +:+ DokployToken cfg]> h else h in
  if negb (String.eqb (DokploySession cfg) "")
  then <["Cookie" := "session=" +:+ DokploySession cfg]> h else h.

(** [NewDockOtter], the headers it sets on the Pangolin client. *)
Definition pangolinHeaders (cfg : Config) : gmap string string :=
  let h := <["Accept" := "application/json"]> (<["User-Agent" := "dock-otter/1.0"]> ∅) in
  if negb (String.eqb (PangolinToken cfg) "")
  then <["Authorization" := "Bearer " +:+ PangolinToken cfg]> h
  else if negb (String.eqb (PangolinAPIKey cfg) "")
  then <["Authorization" := "Bearer " +:+ PangolinAPIKey cfg]> h
  else h.

(** ** Further fixtures *)

Module Fixture.

(** No attempt configured; [validateConfig] would refuse it. *)
Definition cfgZero : Config :=
  {| DokployURL := "http://dokploy:3000"; DokployAPIKey := ""; DokployToken := "";
     DokploySession := ""; PangolinURL := "http://pangolin:3001";
     PangolinAPIKey := ""; PangolinToken := "t"; PollInterval := 30000000000;
     RetryAttempts := 0; RetryDelay := 5000000000; RunOnce := true;
     ForceSync := false |}.

(** A stopped application and one without bindings, beside the two of
    [Scenario.inventory]. *)
Definition stopped : DokployApp :=
  {| App_ApplicationID := "s"; App_ComposeID := ""; App_Name := "old";
     App_AppName := "old-svc"; App_Description := "";
     App_Domains := [Scenario.domain "old.example.com"];
     App_Port := 8080; App_Status := "idle"; App_ProjectID := "p" |}.

Definition bare : DokployApp := Scenario.app "bare" [].

Definition mixed : list DokployProject :=
  [ {| Project_ProjectID := "p"; Project_Name := "main"; Project_Description := "";
       Project_Applications := [stopped; Scenario.web; bare];
       Project_Compose := [Scenario.jobs] |} ].

Definition decodeMixed (body : string) : error + list DokployProject := inr mixed.

(** What the reader leaves when the first candidate answers. *)
Definition fetchedMixed : DockOtter :=
  {| config := Scenario.cfg;
     processedApps := ∅;
     history := [ Sent (GET dokployClient "http://dokploy:3000/api/projects") ] |}.

(** Every request is answered 200; the target accepts. *)
Definition ok (h : list Event) (r : Request) : HttpResult := HttpResponse 200 "ok".

(** An application name of 65 bytes. *)
Definition longName : string :=
  "Customer_Portal.Backend_Service.Production.Region_EU.West.Blue_01".

(** An environment that sets the token and a retry count that does not
    parse. *)
Definition env (key : string) : string :=
  if String.eqb key "PANGOLIN_TOKEN" then "secret"
  else if String.eqb key "RETRY_ATTEMPTS" then "many"
  else "".

Definition noParse {A} (s : string) : option A := None.

(** One application with a name of 65 bytes and three bindings, the
    hostless one between the two hosted ones. *)
Definition crowded : DokployApp :=
  Scenario.app longName
    [Scenario.domain "a.example.com"; Scenario.domain ""; Scenario.domain "b.example.com"].

Definition crowdedInventory : list DokployProject :=
  [ {| Project_ProjectID := "p"; Project_Name := "main"; Project_Description := "";
       Project_Applications := [crowded]; Project_Compose := [] |} ].

Definition decodeCrowded (body : string) : error + list DokployProject :=
  inr crowdedInventory.

End Fixture.

(** ** The program *)

Section Engine.

(** The collaborators: the Unicode case mapping of [strings.ToLower],
    [json.Unmarshal] into a [[]DokployProject], [yaml.Marshal] of a
    blueprint, and the two remote systems, which answer a request as a
    function of everything that happened before it. *)
Variable unicodeLower : string -> string.
Variable json_Unmarshal : string -> error + list DokployProject.
Variable yaml_Marshal : PangolinBlueprint -> error + string.
Variable remote : list Event -> Request -> HttpResult.

(** [client.R()...Get(url)] and [client.R()...SetBody(body).Post(url)]:
    one call on a client, logged with the URL the program passes. *)
Definition send (r : Request) : M HttpResult :=
  fun d => (remote (history d) r, record (Sent r) d).

(** [time.Sleep] *)
Definition sleep (t : Z) : M unit := emit (Slept t).

(** [resolveTargetPort] *)
Definition resolveTargetPort (app : DokployApp) (domain : DokployDomain) : Z :=
  if Domain_Port domain >? 0 then Domain_Port domain
  else if App_Port app >? 0 then App_Port app
  else if Domain_HTTPS domain then 443
  else 80.

(** [generateResourceName] *)
Definition generateResourceName (appName domain : string) : string :=
  let name := appName +:+ "-" +:+ domain in
  let name := strings.ToLower unicodeLower name in
  let name := strings.ReplaceAll name "." "-" in
  let name := strings.ReplaceAll name "_" "-" in
  if (63 <? String.length name)%nat then String.substring 0 63 name else name.

(** [createBlueprint]; its return is entered in the history. *)
Definition createBlueprint (blueprint : PangolinBlueprint) : M (option error) :=
  let* cfg := getConfig in
  let* result :=
    match yaml_Marshal blueprint with
    | inl err => ret (Some (FailedToMarshalBlueprint err))
    | inr yamlData =>
        let* resp := send (POST pangolinClient (PangolinURL cfg +:+ "/v1/blueprints") yamlData) in
        match resp with
        | HttpError err => ret (Some (FailedToCreateBlueprint err))
        | HttpResponse status body =>
            if (status <? 200) || (status >=? 300)
            then ret (Some (PangolinStatus status body))
            else ret None
        end
    end in
  emit (CreateBlueprintReturned blueprint result) ;;;
  ret result.

(** The loop of [createBlueprintWithRetry], entered with [attempt] and
    [lastErr] and with [left] iterations still to run. *)
Fixpoint retryFrom (left : nat) (attempt : Z) (lastErr : option error)
    (blueprint : PangolinBlueprint) : M (option error) :=
  match left with
  | O =>
      let* cfg := getConfig in
      ret (Some (AllAttemptsFailed (RetryAttempts cfg) lastErr))
  | S left' =>
      let* err := createBlueprint blueprint in
      match err with
      | None => ret None
      | Some e =>
          let* cfg := getConfig in
          (if attempt <? RetryAttempts cfg then sleep (RetryDelay cfg) else ret tt) ;;;
          retryFrom left' (attempt + 1) (Some e) blueprint
      end
  end.

(** [createBlueprintWithRetry]: [attempt] runs over 1, ..., [RetryAttempts],
    so the body is entered [RetryAttempts] times at most, and not at all
    when [RetryAttempts] is below 1. *)
Definition createBlueprintWithRetry (blueprint : PangolinBlueprint) : M (option error) :=
  let* cfg := getConfig in
  retryFrom (Z.to_nat (RetryAttempts cfg)) 1 None blueprint.

(** The blueprint built by [processAppDomain]. *)
Definition blueprintFor (resourceName : string) (app : DokployApp)
    (domain : DokployDomain) (targetPort : Z) : PangolinBlueprint :=
  let targetMethod := if Domain_HTTPS domain then "https" else "http" in
  let targetHostname := App_AppName app in
  let targetPath :=
    if negb (String.eqb (Domain_Path domain) "") && negb (String.eqb (Domain_Path domain) "/")
    then Domain_Path domain else "/" in
  {| ProxyResources :=
      [ {| Resource_Name := resourceName;
           Resource_Protocol := "http";
           Resource_FullDomain := Domain_Host domain;
           Resource_SSL := Domain_HTTPS domain;
           Resource_Enabled := true;
           Resource_Targets :=
             [ {| Target_Hostname := targetHostname;
                  Target_Port := targetPort;
                  Target_Method := targetMethod;
                  Target_Enabled := true;
                  Target_Path := targetPath |} ] |} ] |}.

(** [processAppDomain] *)
Definition processAppDomain (app : DokployApp) (domain : DokployDomain) : M (option error) :=
  fun d =>
  let resourceName := generateResourceName (App_Name app) (Domain_Host domain) in
  if negb (ForceSync (config d)) && isProcessed d resourceName then (None, d)
  else if String.eqb (Domain_Host domain) "" then (Some DomainHostEmpty, d)
  else
    let targetPort := resolveTargetPort app domain in
    if targetPort =? 0
    then (Some (NoPortAvailable (App_Name app) (Domain_Host domain)), d)
    else
      let blueprint := blueprintFor resourceName app domain targetPort in
      let (err, d') := createBlueprintWithRetry blueprint d in
      match err with
      | Some e => (Some (FailedToCreateBlueprint e), d')
      | None => (None, markProcessed resourceName d')
      end.

(** [getDokployProjects] *)
Definition endpoints : list string :=
  ["/api/projects"; "/api/project/all"; "/api/project"; "/api/applications"].

Fixpoint tryEndpoints (candidates : list string) (lastErr : option error)
    : M (error + list DokployProject) :=
  match candidates with
  | [] => ret (inl (AllEndpointsFailed lastErr))
  | endpoint :: rest =>
      let* cfg := getConfig in
      let* resp := send (GET dokployClient (DokployURL cfg +:+ endpoint)) in
      match resp with
      | HttpError err => tryEndpoints rest (Some err)
      | HttpResponse status body =>
          if status =? 200 then
            match json_Unmarshal body with
            | inl err => tryEndpoints rest (Some err)
            | inr projects => ret (inr projects)
            end
          else tryEndpoints rest (Some (EndpointStatus endpoint status))
      end
  end.

Definition getDokployProjects : M (error + list DokployProject) :=
  tryEndpoints endpoints None.

(** The counters of [syncApps]. *)
Record Counters := mkCounters { processed : Z; skipped : Z; errors : Z }.

Definition countProcessed (c : Counters) : Counters :=
  {| processed := incr (processed c); skipped := skipped c; errors := errors c |}.
Definition countSkipped (c : Counters) : Counters :=
  {| processed := processed c; skipped := incr (skipped c); errors := errors c |}.
Definition countError (c : Counters) : Counters :=
  {| processed := processed c; skipped := skipped c; errors := incr (errors c) |}.

(** [for _, domain := range app.Domains] *)
Fixpoint rangeDomains (app : DokployApp) (domains : list DokployDomain)
    (c : Counters) : M Counters :=
  match domains with
  | [] => ret c
  | domain :: rest =>
      let* err := processAppDomain app domain in
      rangeDomains app rest
        (match err with Some _ => countError c | None => countProcessed c end)
  end.

(** The body of the loops over [project.Applications] and
    [project.Compose], which differ in their log messages only. *)
Definition syncApp (app : DokployApp) (c : Counters) : M Counters :=
  if negb (String.eqb (App_Status app) "done") then ret (countSkipped c)
  else if (length (App_Domains app) =? 0)%nat then ret (countSkipped c)
  else rangeDomains app (App_Domains app) c.

Fixpoint rangeApps (apps : list DokployApp) (c : Counters) : M Counters :=
  match apps with
  | [] => ret c
  | app :: rest => let* c' := syncApp app c in rangeApps rest c'
  end.

(** [for _, project := range projects] *)
Fixpoint rangeProjects (projects : list DokployProject) (c : Counters) : M Counters :=
  match projects with
  | [] => ret c
  | project :: rest =>
      let* c1 := rangeApps (Project_Applications project) c in
      let* c2 := rangeApps (Project_Compose project) c1 in
      rangeProjects rest c2
  end.

(** [syncApps] *)
Definition syncApps : M (option error) :=
  let* r := getDokployProjects in
  match r with
  | inl err => ret (Some (FailedToGetProjects err))
  | inr projects =>
      let* c := rangeProjects projects (mkCounters 0 0 0) in
      emit (SyncCompleted (processed c) (skipped c) (errors c)) ;;;
      ret None
  end.

(** [testConnectivity]; the totals it computes are only logged. *)
Definition testConnectivity : M (option error) :=
  let* r := getDokployProjects in
  match r with
  | inl err => ret (Some err)
  | inr _ =>
      let* cfg := getConfig in
      send (GET pangolinClient (PangolinURL cfg +:+ "/v1/docs")) ;;;
      ret None
  end.

(** ** The rules as the specification words them *)

(** Port priority: the domain port if positive, else the application port
    if positive, else 443 for a TLS binding and 80 otherwise. *)
Definition resolvedPort (domainPort appPort : Z) (https : bool) : Z :=
  if 0 <? domainPort then domainPort
  else if 0 <? appPort then appPort
  else if https then 443 else 80.

(** Every [.] and [_] becomes [-]. *)
Definition dashed (c : ascii) : ascii :=
  if Ascii.eqb c "."%char || Ascii.eqb c "_"%char then "-"%char else c.

Fixpoint firstBytes (n : nat) (s : string) : string :=
  match n, s with
  | S n', String c s' => String c (firstBytes n' s')
  | _, _ => EmptyString
  end.

(** Naming rule: concatenate, lowercase the whole, replace, keep the first
    63 bytes. *)
Definition derivedName (applicationName domainHost : string) : string :=
  let full := applicationName +:+ "-" +:+ domainHost in
  let dashes := strings.mapBytes dashed (strings.ToLower unicodeLower full) in
  if (63 <? String.length dashes)%nat then firstBytes 63 dashes else dashes.

Definition isNoPortAvailable (err : option error) : bool :=
  match err with Some (NoPortAvailable _ _) => true | _ => false end.

(** One pass of [strings.ReplaceAll] with one-byte arguments. *)
Definition replaceByte (old new c : ascii) : ascii :=
  if Ascii.eqb c old then new else c.

(** ** Reading a history *)

(** The returns of [createBlueprint] in a stretch of history, in order. *)
Definition attempts (evs : list Event) : list (PangolinBlueprint * option error) :=
  flat_map (fun e => match e with
                     | CreateBlueprintReturned bp r => [(bp, r)]
                     | _ => []
                     end) evs.

(** The resource names whose blueprint was accepted by the target. *)
Definition publishedNames (evs : list Event) : list string :=
  flat_map (fun a => match snd a with
                     | None => map Resource_Name (ProxyResources (fst a))
                     | Some _ => []
                     end) (attempts evs).


(** [createBlueprint] succeeds on every blueprint whatever happened before. *)
Definition alwaysAccepts : Prop :=
  forall (blueprint : PangolinBlueprint) (d : DockOtter),
    fst (createBlueprint blueprint d) = None.


(** ** Reading the candidates of the inventory reader *)

Definition endpointRequest (cfg : Config) (endpoint : string) : Request :=
  GET dokployClient (DokployURL cfg +:+ endpoint).

(** The history added by trying the candidates [eps] one after the other. *)
Definition tried (cfg : Config) (eps : list string) : list Event :=
  map (fun endpoint => Sent (endpointRequest cfg endpoint)) eps.

(** After the history [h], the candidate answers 200 with a body that
    decodes to [projects]. *)
Definition yields (cfg : Config) (h : list Event) (endpoint : string)
    (projects : list DokployProject) : Prop :=
  exists body,
    remote h (endpointRequest cfg endpoint) = HttpResponse 200 body
    /\ json_Unmarshal body = inr projects.

(** After the history [h], the candidate fails with [err]: a transport
    error, a status other than 200, or a body that does not decode. *)
Definition failsWith (cfg : Config) (h : list Event) (endpoint : string)
    (err : error) : Prop :=
  remote h (endpointRequest cfg endpoint) = HttpError err
  \/ (exists status body,
        remote h (endpointRequest cfg endpoint) = HttpResponse status body
        /\ status <> 200 /\ err = EndpointStatus endpoint status)
  \/ (exists body,
        remote h (endpointRequest cfg endpoint) = HttpResponse 200 body
        /\ json_Unmarshal body = inl err).

(** Tried in order from the history [h], every candidate of [eps] fails. *)
Fixpoint allFail (cfg : Config) (h : list Event) (eps : list string) : Prop :=
  match eps with
  | [] => True
  | endpoint :: rest =>
      (exists err, failsWith cfg h endpoint err)
      /\ allFail cfg (h ++ tried cfg [endpoint]) rest
  end.


(** ** The life of a process *)

(** What [main] and [Run] do with a [DockOtter] between its creation and the
    end of the process: connectivity tests and reconciliation passes.  The
    processing of a single binding is a step of its own, so that a property
    of all later states also covers the states inside a pass. *)
Inductive step : DockOtter -> DockOtter -> Prop :=
| step_testConnectivity (d : DockOtter) : step d (snd (testConnectivity d))
| step_syncApps (d : DockOtter) : step d (snd (syncApps d))
| step_processAppDomain (app : DokployApp) (domain : DokployDomain) (d : DockOtter) :
    step d (snd (processAppDomain app domain d)).

(** No name was accepted twice, and every accepted name is in the ledger. *)
Definition publishedOnce (d : DockOtter) : Prop :=
  NoDup (publishedNames (history d))
  /\ forall name, In name (publishedNames (history d)) -> isProcessed d name = true.

(** The override is off and [publishedOnce] holds. *)
Definition guarded (d : DockOtter) : Prop :=
  ForceSync (config d) = false /\ publishedOnce d.

(** A property of the state that running [m] cannot break. *)
Definition preserves {A} (P : DockOtter -> Prop) (m : M A) : Prop :=
  forall d, P d -> P (snd (m d)).


(** ** Reading an inventory *)

(** The entries of an inventory in the order [syncApps] visits them: for
    each project its applications, then its compose applications. *)
Definition entries (projects : list DokployProject) : list DokployApp :=
  flat_map (fun p => Project_Applications p ++ Project_Compose p) projects.

(** An entry that is not skipped: status "done" and at least one binding. *)
Definition eligible (app : DokployApp) : bool :=
  String.eqb (App_Status app) "done" && negb (length (App_Domains app) =? 0)%nat.

Definition appBindings (app : DokployApp) : list (DokployApp * DokployDomain) :=
  map (pair app) (App_Domains app).

(** The (entry, binding) pairs of an inventory, in order. *)
Definition bindings (projects : list DokployProject) : list (DokployApp * DokployDomain) :=
  flat_map appBindings (entries projects).

Definition emptyHost (b : DokployApp * DokployDomain) : bool :=
  String.eqb (Domain_Host (snd b)) "".

Definition bindingName (b : DokployApp * DokployDomain) : string :=
  generateResourceName (App_Name (fst b)) (Domain_Host (snd b)).

(** One error for a binding without a host, one processed for any other. *)
Definition tally (c : Counters) (b : DokployApp * DokployDomain) : Counters :=
  if emptyHost b then countError c else countProcessed c.

(** With [bad] the names derived by the bindings without a host: a binding
    is [sorted] when its name is [bad] exactly if it has no host, and a
    state is [clear] when at least one attempt is configured and the ledger
    holds back no [bad] name. *)
Definition sorted (bad : string -> Prop) (b : DokployApp * DokployDomain) : Prop :=
  if emptyHost b then bad (bindingName b) else ~ bad (bindingName b).

Definition clear (bad : string -> Prop) (d : DockOtter) : Prop :=
  1 <= RetryAttempts (config d)
  /\ forall n, bad n -> negb (ForceSync (config d)) && isProcessed d n = false.

(** ** A pass as a walk over its bindings *)

(** The bindings of the entries a pass does not skip, in its order. *)
Definition eligibleBindings (projects : list DokployProject)
    : list (DokployApp * DokployDomain) :=
  flat_map appBindings (List.filter eligible (entries projects)).

(** The entries a pass skips. *)
Definition skippedEntries (projects : list DokployProject) : list DokployApp :=
  List.filter (fun app => negb (eligible app)) (entries projects).

(** [processAppDomain] on each binding in turn, counted as [syncApps] does. *)
Fixpoint processBindings (bs : list (DokployApp * DokployDomain)) (c : Counters)
    : M Counters :=
  match bs with
  | [] => ret c
  | b :: rest =>
      let* err := processAppDomain (fst b) (snd b) in
      processBindings rest
        (match err with Some _ => countError c | None => countProcessed c end)
  end.

(** [skipped++], [n] times. *)
Definition skipMany (n : nat) (c : Counters) : Counters :=
  {| processed := processed c;
     skipped := Nat.iter n incr (skipped c);
     errors := errors c |}.

(** ** What a published blueprint looks like *)

(** One enabled resource over "http" with a name of at most 63 bytes and a
    domain, and one enabled target with a positive port, a path, and the
    method that goes with the resource's TLS flag. *)
Definition wellFormed (bp : PangolinBlueprint) : Prop :=
  exists name fullDomain ssl hostname port path,
    bp = {| ProxyResources :=
             [ {| Resource_Name := name;
                  Resource_Protocol := "http";
                  Resource_FullDomain := fullDomain;
                  Resource_SSL := ssl;
                  Resource_Enabled := true;
                  Resource_Targets :=
                    [ {| Target_Hostname := hostname;
                         Target_Port := port;
                         Target_Method := if ssl then "https" else "http";
                         Target_Enabled := true;
                         Target_Path := path |} ] |} ] |}
    /\ (String.length name <= 63)%nat
    /\ fullDomain <> ""
    /\ 0 < port
    /\ path <> "".

(** The [time.Sleep] calls in a stretch of history, in order. *)
Definition sleeps (evs : list Event) : list Z :=
  flat_map (fun e => match e with Slept t => [t] | _ => [] end) evs.

(** The calls made on the two clients in a stretch of history, in order. *)
Definition requests (evs : list Event) : list Request :=
  flat_map (fun e => match e with Sent r => [r] | _ => [] end) evs.

(** ** Reading a resource name *)

(** What [generateResourceName] makes of one ASCII byte. *)
Definition folded (c : ascii) : ascii := dashed (strings.lowerByte c).

(** An ASCII byte that is no dot, no underscore and no capital letter. *)
Definition labelByte (c : ascii) : bool :=
  let n := nat_of_ascii c in
  strings.isASCIIByte c
  && negb (Ascii.eqb c "."%char) && negb (Ascii.eqb c "_"%char)
  && negb ((65 <=? n) && (n <=? 90))%nat.

Fixpoint allBytes (p : ascii -> bool) (s : string) : bool :=
  match s with
  | EmptyString => true
  | String c s' => p c && allBytes p s'
  end.

(** ** The daemon *)

(** What the [select] of [Run] receives next: the cancellation of the
    context or a tick. *)
Inductive Signal : Type := Cancelled | Ticked.

(** How a call has ended so far: [time.NewTicker] panicked, the loop is
    waiting for its next signal, or the call returned. *)
Inductive Outcome : Type :=
| Panicked
| Waiting
| Returned (err : option error).

(** The [for { select { ... } }] of [Run]; a failed pass is only logged. *)
Fixpoint runLoop (signals : list Signal) : M Outcome :=
  match signals with
  | [] => ret Waiting
  | Cancelled :: _ => ret (Returned None)
  | Ticked :: rest => syncApps ;;; runLoop rest
  end.

(** [Run]: the connectivity test, whose failure is only logged, the ticker,
    which panics on an interval that is not positive, the initial pass and
    the loop. *)
Definition Run (signals : list Signal) : M Outcome :=
  testConnectivity ;;;
  let* cfg := getConfig in
  if PollInterval cfg <=? 0 then ret Panicked
  else syncApps ;;; runLoop signals.

(** How the process ends: [os.Exit] or return from [main] with a code, a
    panic, or still running. *)
Inductive ProcessEnd : Type := Exit (code : Z) | Crash | Running.

(** The switch of [main] on [os.Args[1]]: the code a flag exits with, or
    [None] when [main] goes on.  [health] is what the GET of the health
    endpoint returns. *)
Definition flagExit (args : list string) (health : HttpResult) : option ProcessEnd :=
  match args with
  | _ :: arg :: _ =>
      if String.eqb arg "--version" || String.eqb arg "-v" then Some (Exit 0)
      else if String.eqb arg "--health-check" then
        match health with
        | HttpError _ => Some (Exit 1)
        | HttpResponse status _ => if negb (status =? 200) then Some (Exit 1) else Some (Exit 0)
        end
      else if String.eqb arg "--help" || String.eqb arg "-h" then Some (Exit 0)
      else None
  | _ => None
  end.

(** [main], with [args] for [os.Args] and [cfg] for what [loadConfig]
    returns.  The health server of the daemon shares nothing with the
    engine and is left out. *)
Definition main (args : list string) (health : HttpResult) (cfg : Config)
    (signals : list Signal) : ProcessEnd * option DockOtter :=
  match flagExit args health with
  | Some code => (code, None)
  | None =>
      match validateConfig cfg with
      | Some _ => (Exit 1, None)
      | None =>
          let app := NewDockOtter cfg in
          if RunOnce cfg then
            let (err, d) := syncApps app in
            (match err with Some _ => Exit 1 | None => Exit 0 end, Some d)
          else
            let (outcome, d) := Run signals app in
            (match outcome with
             | Returned None => Exit 0
             | Returned (Some _) => Exit 1
             | Panicked => Crash
             | Waiting => Running
             end, Some d)
      end
  end.

(** [n] passes in a row. *)
Definition passes (n : nat) (d : DockOtter) : DockOtter :=
  Nat.iter n (fun x => snd (syncApps x)) d.

(** ** The calls the engine makes on its clients *)

(** A [Get] of a candidate endpoint of the source, the [Get] of the target's
    documentation, or a [Post] of a blueprint to the target. *)
Definition allowedRequest (cfg : Config) (r : Request) : Prop :=
  (exists endpoint, In endpoint endpoints
                    /\ r = GET dokployClient (DokployURL cfg +:+ endpoint))
  \/ r = GET pangolinClient (PangolinURL cfg +:+ "/v1/docs")
  \/ exists body, r = POST pangolinClient (PangolinURL cfg +:+ "/v1/blueprints") body.

Definition onlyAllowed (cfg : Config) (d : DockOtter) : Prop :=
  config d = cfg /\ Forall (allowedRequest cfg) (requests (history d)).



(** ** Strings *)

Lemma replaceFrom_byte (old new : ascii) (s : string) :
  strings.replaceFrom (String old EmptyString) (String new EmptyString) O s
  = strings.mapBytes (replaceByte old new) s.
Proof.
  induction s as [|c s IH]; [reflexivity|].
  cbn [strings.replaceFrom strings.mapBytes String.prefix String.length Nat.sub].
  unfold replaceByte.
  destruct (ascii_dec old c) as [->|Hne].
  - rewrite Ascii.eqb_refl.
    replace (String.prefix EmptyString s) with true by (now destruct s).
    cbn [String.append]. now rewrite IH.
  - destruct (Ascii.eqb_spec c old) as [->|_]; [congruence|].
    now rewrite IH.
Qed.

Lemma mapBytes_compose (f g : ascii -> ascii) (s : string) :
  strings.mapBytes g (strings.mapBytes f s) = strings.mapBytes (fun c => g (f c)) s.
Proof. induction s; cbn; congruence. Qed.

Lemma mapBytes_ext (f g : ascii -> ascii) (s : string) :
  (forall c, f c = g c) -> strings.mapBytes f s = strings.mapBytes g s.
Proof. intros E. induction s; cbn; [reflexivity|]. now rewrite E, IHs. Qed.

Lemma dashed_two_passes (c : ascii) :
  replaceByte "_" "-" (replaceByte "." "-" c) = dashed c.
Proof.
  unfold replaceByte, dashed.
  destruct (Ascii.eqb_spec c "."%char) as [->|]; [reflexivity|].
  now destruct (Ascii.eqb c "_"%char).
Qed.

Lemma ReplaceAll_dot_underscore (s : string) :
  strings.ReplaceAll (strings.ReplaceAll s "." "-") "_" "-" = strings.mapBytes dashed s.
Proof.
  unfold strings.ReplaceAll. cbn [String.eqb Ascii.eqb Bool.eqb andb].
  rewrite !replaceFrom_byte, mapBytes_compose.
  apply mapBytes_ext, dashed_two_passes.
Qed.

Lemma substring_0_firstBytes (n : nat) (s : string) :
  String.substring 0 n s = firstBytes n s.
Proof.
  revert s; induction n as [|n IH]; intros [|c s]; cbn; try reflexivity.
  now rewrite IH.
Qed.

Lemma length_firstBytes (n : nat) (s : string) :
  String.length (firstBytes n s) = Nat.min n (String.length s).
Proof.
  revert s; induction n as [|n IH]; intros [|c s]; cbn; try reflexivity.
  now rewrite IH.
Qed.

Lemma generateResourceName_derivedName (appName host : string) :
  generateResourceName appName host = derivedName appName host.
Proof.
  unfold generateResourceName, derivedName.
  rewrite ReplaceAll_dot_underscore.
  now rewrite substring_0_firstBytes.
Qed.

Lemma derivedName_length (appName host : string) :
  (String.length (derivedName appName host) <= 63)%nat.
Proof.
  unfold derivedName.
  destruct (Nat.ltb_spec 63
    (String.length (strings.mapBytes dashed
       (strings.ToLower unicodeLower (appName +:+ "-" +:+ host))))) as [H|H].
  - rewrite length_firstBytes. lia.
  - exact H.
Qed.

(** ** Port resolution *)

Lemma resolveTargetPort_positive (app : DokployApp) (domain : DokployDomain) :
  0 < resolveTargetPort app domain.
Proof.
  unfold resolveTargetPort.
  destruct (Z.gtb_spec (Domain_Port domain) 0); [lia|].
  destruct (Z.gtb_spec (App_Port app) 0); [lia|].
  destruct (Domain_HTTPS domain); lia.
Qed.

(** C1. [resolveTargetPort] returns the domain port if it is positive, else
    the application port if it is positive, else 443 for an HTTPS binding
    and 80 otherwise; with both ports 0 and HTTPS on it returns 443. *)
Theorem resolveTargetPort_priority :
  (forall (app : DokployApp) (domain : DokployDomain),
      resolveTargetPort app domain
      = resolvedPort (Domain_Port domain) (App_Port app) (Domain_HTTPS domain))
  /\ (forall id host path cert aid cid name appName descr domains status pid,
      resolveTargetPort
        (mkApp aid cid name appName descr domains 0 status pid)
        (mkDomain id host path 0 true cert) = 443).
Proof.
  split; [|reflexivity].
  intros app domain. unfold resolveTargetPort, resolvedPort.
  rewrite !Z.gtb_ltb. reflexivity.
Qed.

(** C2. [generateResourceName] is the application name, a dash and the
    host, lowercased, with every [.] and [_] turned into [-], cut to its
    first 63 bytes when longer; it is never longer than 63, and for "MyApp"
    and "Example.COM" it is "myapp-example-com".  Length is Go's [len], the
    number of bytes. *)
Theorem generateResourceName_rule :
  (forall appName host : string,
      generateResourceName appName host = derivedName appName host
      /\ (String.length (generateResourceName appName host) <= 63)%nat)
  /\ generateResourceName "MyApp" "Example.COM" = "myapp-example-com".
Proof.
  split; [|reflexivity].
  intros appName host. rewrite generateResourceName_derivedName.
  split; [reflexivity | apply derivedName_length].
Qed.

(** ** Configuration *)

(** A configuration that [main] lets through has 1 to 10 attempts. *)
Lemma validateConfig_RetryAttempts (cfg : Config) :
  validateConfig cfg = None -> 1 <= RetryAttempts cfg <= 10.
Proof.
  unfold validateConfig.
  destruct (String.eqb (DokployURL cfg) ""); [discriminate|].
  destruct (String.eqb (PangolinURL cfg) ""); [discriminate|].
  destruct (negb _); [discriminate|].
  destruct (negb (RunOnce cfg) && _); [discriminate|].
  destruct (Z.ltb_spec (RetryAttempts cfg) 1); [discriminate|].
  destruct (Z.gtb_spec (RetryAttempts cfg) 10); [discriminate|].
  intros _. lia.
Qed.

(** ** Histories *)

Lemma last_cons_default {A} (l : list A) (x d : A) :
  List.last (x :: l) d = List.last l x.
Proof.
  revert x d. induction l as [|y l IH]; intros x d; [reflexivity|].
  change (List.last (x :: y :: l) d) with (List.last (y :: l) d).
  now rewrite (IH y d), (IH y x).
Qed.

Lemma attempts_app (l1 l2 : list Event) :
  attempts (l1 ++ l2) = attempts l1 ++ attempts l2.
Proof. apply flat_map_app. Qed.

Lemma publishedNames_app (l1 l2 : list Event) :
  publishedNames (l1 ++ l2) = publishedNames l1 ++ publishedNames l2.
Proof. unfold publishedNames. now rewrite attempts_app, flat_map_app. Qed.

Ltac run := unfold bind, ret, getConfig, emit, send, sleep, record in *.

(** ** The publisher *)

(** A call of [createBlueprint] keeps the configuration and the ledger and
    adds one return to the history. *)
Lemma createBlueprint_run (bp : PangolinBlueprint) (d d' : DockOtter) (r : option error) :
  createBlueprint bp d = (r, d') ->
  config d' = config d /\ processedApps d' = processedApps d
  /\ exists evs, history d' = history d ++ evs /\ attempts evs = [(bp, r)].
Proof.
  unfold createBlueprint. run.
  destruct (yaml_Marshal bp) as [err|yamlData].
  - intros [= <- <-]. cbn. repeat split.
    now exists [CreateBlueprintReturned bp (Some (FailedToMarshalBlueprint err))].
  - set (req := POST pangolinClient _ yamlData).
    destruct (remote (history d) req) as [err|status body].
    + intros [= <- <-]. cbn. repeat split.
      exists [Sent req; CreateBlueprintReturned bp (Some (FailedToCreateBlueprint err))].
      now rewrite <- app_assoc.
    + destruct ((status <? 200) || (status >=? 300));
        intros [= <- <-]; cbn; repeat split;
        eexists [Sent req; CreateBlueprintReturned bp _];
        now rewrite <- app_assoc.
Qed.

(** The retry loop, whatever the publisher answers: it keeps the
    configuration and the ledger, every return it adds is for the blueprint
    it was given, and a return with [nil] is added exactly when the loop
    itself returns [nil], as the last one. *)
Lemma retryFrom_run (bp : PangolinBlueprint) (left : nat) :
  forall (attempt : Z) (lastErr : option error) (d d' : DockOtter) (r : option error),
    retryFrom left attempt lastErr bp d = (r, d') ->
    config d' = config d /\ processedApps d' = processedApps d
    /\ exists evs, history d' = history d ++ evs
         /\ Forall (fun a => fst a = bp) (attempts evs)
         /\ publishedNames evs
            = match r with
              | None => map Resource_Name (ProxyResources bp)
              | Some _ => []
              end.
Proof.
  induction left as [|left IH]; intros attempt lastErr d d' r; cbn [retryFrom].
  - run. intros [= <- <-]. repeat split. exists []. rewrite app_nil_r. now repeat split.
  - unfold bind at 1.
    destruct (createBlueprint bp d) as [r1 d1] eqn:E1.
    destruct (createBlueprint_run _ _ _ _ E1) as (Hc1 & Hp1 & evs1 & Hh1 & Ha1).
    destruct r1 as [e|].
    + unfold bind at 1, getConfig at 1. unfold bind at 1.
      destruct ((if attempt <? RetryAttempts (config d1)
                 then sleep (RetryDelay (config d1)) else ret tt) d1) as [u d2] eqn:E2.
      assert (H2 : config d2 = config d1 /\ processedApps d2 = processedApps d1
                   /\ exists evs2, history d2 = history d1 ++ evs2 /\ attempts evs2 = []).
      { destruct (attempt <? RetryAttempts (config d1)); run; injection E2 as <- <-; cbn.
        - repeat split. now eexists [_].
        - repeat split. exists []. now rewrite app_nil_r. }
      destruct H2 as (Hc2 & Hp2 & evs2 & Hh2 & Ha2).
      intros E3. destruct (IH _ _ _ _ _ E3) as (Hc3 & Hp3 & evs3 & Hh3 & Hf3 & Hn3).
      split; [congruence|]. split; [congruence|].
      exists (evs1 ++ evs2 ++ evs3). split; [|split].
      * rewrite Hh3, Hh2, Hh1. now rewrite <- !app_assoc.
      * rewrite !attempts_app, Ha1, Ha2. cbn. constructor; [reflexivity|exact Hf3].
      * rewrite !publishedNames_app, Hn3. unfold publishedNames at 1 2.
        rewrite Ha1, Ha2. reflexivity.
    + run. intros [= <- <-]. split; [exact Hc1|]. split; [exact Hp1|].
      exists evs1. split; [exact Hh1|]. split.
      * rewrite Ha1. now constructor.
      * unfold publishedNames. rewrite Ha1. cbn. now rewrite app_nil_r.
Qed.

Lemma createBlueprintWithRetry_run (bp : PangolinBlueprint) (d d' : DockOtter) (r : option error) :
  createBlueprintWithRetry bp d = (r, d') ->
  config d' = config d /\ processedApps d' = processedApps d
  /\ exists evs, history d' = history d ++ evs
       /\ Forall (fun a => fst a = bp) (attempts evs)
       /\ publishedNames evs
          = match r with
            | None => map Resource_Name (ProxyResources bp)
            | Some _ => []
            end.
Proof. unfold createBlueprintWithRetry. run. apply retryFrom_run. Qed.



(** ** The inventory reader *)

Lemma tried_app (cfg : Config) (l1 l2 : list string) :
  tried cfg (l1 ++ l2) = tried cfg l1 ++ tried cfg l2.
Proof. apply List.map_app. Qed.

Lemma attempts_tried (cfg : Config) (eps : list string) : attempts (tried cfg eps) = [].
Proof. induction eps; [reflexivity | exact IHeps]. Qed.

(** One candidate: it is requested, and either it yields the inventory or
    it fails with the error that becomes [lastErr]. *)
Lemma tryEndpoints_step (endpoint : string) (rest : list string)
    (lastErr : option error) (d : DockOtter) :
  let d1 := record (Sent (endpointRequest (config d) endpoint)) d in
  (exists projects,
      yields (config d) (history d) endpoint projects
      /\ tryEndpoints (endpoint :: rest) lastErr d = (inr projects, d1))
  \/ (exists err,
      failsWith (config d) (history d) endpoint err
      /\ tryEndpoints (endpoint :: rest) lastErr d = tryEndpoints rest (Some err) d1).
Proof.
  cbn [tryEndpoints]. run. fold (endpointRequest (config d) endpoint).
  unfold yields, failsWith.
  destruct (remote (history d) (endpointRequest (config d) endpoint)) as [err|status body].
  - right. exists err. now split; [left|].
  - destruct (Z.eqb_spec status 200) as [->|Hne].
    + destruct (json_Unmarshal body) as [err|projects] eqn:Ej.
      * right. exists err. split; [|reflexivity]. right; right. now exists body.
      * left. exists projects. split; [|reflexivity]. now exists body.
    + right. exists (EndpointStatus endpoint status). split; [|reflexivity].
      right; left. now exists status, body.
Qed.

(** The loop over any list of candidates. *)
Lemma tryEndpoints_run (eps : list string) :
  forall (lastErr : option error) (d d' : DockOtter) (r : error + list DokployProject),
    tryEndpoints eps lastErr d = (r, d') ->
    config d' = config d /\ processedApps d' = processedApps d
    /\ match r with
       | inr projects =>
           exists failed endpoint rest,
             eps = failed ++ endpoint :: rest
             /\ history d' = history d ++ tried (config d) (failed ++ [endpoint])
             /\ allFail (config d) (history d) failed
             /\ yields (config d) (history d ++ tried (config d) failed) endpoint projects
       | inl err =>
           history d' = history d ++ tried (config d) eps
           /\ allFail (config d) (history d) eps
           /\ exists cause,
                err = AllEndpointsFailed cause
                /\ ((eps = [] /\ cause = lastErr)
                    \/ exists before final e,
                         eps = before ++ [final] /\ cause = Some e
                         /\ failsWith (config d)
                              (history d ++ tried (config d) before) final e)
       end.
Proof.
  induction eps as [|endpoint rest IH]; intros lastErr d d' r.
  - cbn. run. intros [= <- <-]. repeat split; [now rewrite app_nil_r|].
    exists lastErr. split; [reflexivity|]. now left.
  - destruct (tryEndpoints_step endpoint rest lastErr d)
      as [(projects & Hy & ->) | (err & Hf & ->)].
    + intros [= <- <-]. cbn. repeat split.
      exists [], endpoint, rest. cbn. rewrite app_nil_r. now repeat split.
    + intros E. apply IH in E. cbn [record config processedApps history] in E.
      destruct E as (Hc & Hp & E). split; [exact Hc|]. split; [exact Hp|].
      destruct r as [e|projects].
      * destruct E as (Hh & Hall & cause & -> & Hcause). split; [|split].
        -- rewrite Hh, <- app_assoc. reflexivity.
        -- cbn. split; [now exists err | exact Hall].
        -- exists cause. split; [reflexivity|]. right.
           destruct Hcause as [[-> ->] | (before & final & e' & -> & -> & Hfin)].
           ++ exists [], endpoint, err. cbn. rewrite app_nil_r. now repeat split.
           ++ exists (endpoint :: before), final, e'. repeat split.
              cbn [tried map]. rewrite <- app_assoc in Hfin. exact Hfin.
      * destruct E as (failed & final & rest' & -> & Hh & Hall & Hy).
        exists (endpoint :: failed), final, rest'. split; [reflexivity|]. split; [|split].
        -- rewrite Hh, <- app_assoc. reflexivity.
        -- cbn. split; [now exists err | exact Hall].
        -- cbn [tried map]. rewrite <- app_assoc in Hy. exact Hy.
Qed.

(** C5. [getDokployProjects] requests its candidates in their fixed order.
    When it returns an inventory, that is the decoded body of a candidate
    that answered 200, every candidate before it had failed, and no
    candidate after it was requested.  When it returns an error, all four
    candidates were requested and failed, and the error wraps the failure
    of the last one alone.  Neither the configuration nor the ledger
    changes, and nothing but these requests enters the history. *)
Theorem getDokployProjects_first_success (d d' : DockOtter)
    (r : error + list DokployProject) :
  getDokployProjects d = (r, d') ->
  config d' = config d /\ processedApps d' = processedApps d
  /\ match r with
     | inr projects =>
         exists failed endpoint rest,
           endpoints = failed ++ endpoint :: rest
           /\ history d' = history d ++ tried (config d) (failed ++ [endpoint])
           /\ allFail (config d) (history d) failed
           /\ yields (config d) (history d ++ tried (config d) failed) endpoint projects
     | inl err =>
         history d' = history d ++ tried (config d) endpoints
         /\ allFail (config d) (history d) endpoints
         /\ exists cause,
              err = AllEndpointsFailed (Some cause)
              /\ failsWith (config d)
                   (history d
                    ++ tried (config d) ["/api/projects"; "/api/project/all"; "/api/project"])
                   "/api/applications" cause
     end.
Proof.
  unfold getDokployProjects. intros E. apply tryEndpoints_run in E.
  destruct E as (Hc & Hp & E). split; [exact Hc|]. split; [exact Hp|].
  destruct r as [err|projects]; [|exact E].
  destruct E as (Hh & Hall & cause & -> & Hcause). split; [exact Hh|]. split; [exact Hall|].
  destruct Hcause as [[Hnil _] | (before & final & e & Heq & -> & Hfin)]; [discriminate|].
  exists e. split; [reflexivity|].
  change endpoints
    with (["/api/projects"; "/api/project/all"; "/api/project"] ++ ["/api/applications"]) in Heq.
  apply app_inj_tail in Heq as [<- <-]. exact Hfin.
Qed.

(** ** Properties kept by a pass *)

Lemma preserves_ret {A} (P : DockOtter -> Prop) (a : A) : preserves P (ret a).
Proof. now intros d. Qed.

Lemma preserves_bind {A B} (P : DockOtter -> Prop) (m : M A) (k : A -> M B) :
  preserves P m -> (forall a, preserves P (k a)) -> preserves P (bind m k).
Proof.
  intros Hm Hk d Hd. unfold bind. specialize (Hm d Hd).
  destruct (m d) as [a d1]. now apply Hk.
Qed.

Lemma preserves_getConfig (P : DockOtter -> Prop) : preserves P getConfig.
Proof. now intros d. Qed.

Section Preservation.

Variable P : DockOtter -> Prop.
Hypothesis P_send : forall r, preserves P (send r).
Hypothesis P_completed : forall p s e, preserves P (emit (SyncCompleted p s e)).
Hypothesis P_processAppDomain : forall app domain, preserves P (processAppDomain app domain).

Lemma tryEndpoints_preserves (eps : list string) (lastErr : option error) :
  preserves P (tryEndpoints eps lastErr).
Proof.
  revert lastErr. induction eps as [|endpoint rest IH]; intros lastErr; cbn [tryEndpoints].
  - apply preserves_ret.
  - apply preserves_bind; [apply preserves_getConfig | intros cfg].
    apply preserves_bind; [apply P_send | intros [err|status body]]; [apply IH|].
    destruct (status =? 200); [|apply IH].
    destruct (json_Unmarshal body); [apply IH | apply preserves_ret].
Qed.

Lemma rangeDomains_preserves (app : DokployApp) (domains : list DokployDomain) (c : Counters) :
  preserves P (rangeDomains app domains c).
Proof.
  revert c. induction domains as [|domain rest IH]; intros c; cbn [rangeDomains].
  - apply preserves_ret.
  - apply preserves_bind; [apply P_processAppDomain | intros err; apply IH].
Qed.

Lemma syncApp_preserves (app : DokployApp) (c : Counters) : preserves P (syncApp app c).
Proof.
  unfold syncApp.
  destruct (negb _); [apply preserves_ret|].
  destruct (_ =? _)%nat; [apply preserves_ret | apply rangeDomains_preserves].
Qed.

Lemma rangeApps_preserves (apps : list DokployApp) (c : Counters) :
  preserves P (rangeApps apps c).
Proof.
  revert c. induction apps as [|app rest IH]; intros c; cbn [rangeApps].
  - apply preserves_ret.
  - apply preserves_bind; [apply syncApp_preserves | intros c'; apply IH].
Qed.

Lemma rangeProjects_preserves (projects : list DokployProject) (c : Counters) :
  preserves P (rangeProjects projects c).
Proof.
  revert c. induction projects as [|project rest IH]; intros c; cbn [rangeProjects].
  - apply preserves_ret.
  - apply preserves_bind; [apply rangeApps_preserves | intros c1].
    apply preserves_bind; [apply rangeApps_preserves | intros c2; apply IH].
Qed.

Lemma syncApps_preserves : preserves P syncApps.
Proof.
  unfold syncApps.
  apply preserves_bind; [apply tryEndpoints_preserves | intros [err|projects]].
  - apply preserves_ret.
  - apply preserves_bind; [apply rangeProjects_preserves | intros c].
    apply preserves_bind; [apply P_completed | intros _; apply preserves_ret].
Qed.

Lemma testConnectivity_preserves : preserves P testConnectivity.
Proof.
  unfold testConnectivity.
  apply preserves_bind; [apply tryEndpoints_preserves | intros [err|projects]].
  - apply preserves_ret.
  - apply preserves_bind; [apply preserves_getConfig | intros cfg].
    apply preserves_bind; [apply P_send | intros _; apply preserves_ret].
Qed.

Lemma step_preserves (d d' : DockOtter) : step d d' -> P d -> P d'.
Proof.
  intros [d0|d0|app domain d0] Hd.
  - now apply testConnectivity_preserves.
  - now apply syncApps_preserves.
  - now apply P_processAppDomain.
Qed.

Lemma later_preserves (d d' : DockOtter) : rtc step d d' -> P d -> P d'.
Proof.
  induction 1 as [|d1 d2 d3 H12 _ IH]; [trivial|].
  intros Hd. apply IH. now apply (step_preserves d1).
Qed.

End Preservation.

(** ** One binding *)

(** The three ways through [processAppDomain]; the port check never fires. *)
Lemma processAppDomain_cases (app : DokployApp) (domain : DokployDomain) (d : DockOtter) :
  let name := generateResourceName (App_Name app) (Domain_Host domain) in
  let bp := blueprintFor name app domain (resolveTargetPort app domain) in
  (negb (ForceSync (config d)) && isProcessed d name = true
   /\ processAppDomain app domain d = (None, d))
  \/ (negb (ForceSync (config d)) && isProcessed d name = false
      /\ Domain_Host domain = ""
      /\ processAppDomain app domain d = (Some DomainHostEmpty, d))
  \/ (negb (ForceSync (config d)) && isProcessed d name = false
      /\ Domain_Host domain <> ""
      /\ exists r d1,
           createBlueprintWithRetry bp d = (r, d1)
           /\ processAppDomain app domain d
              = match r with
                | Some e => (Some (FailedToCreateBlueprint e), d1)
                | None => (None, markProcessed name d1)
                end).
Proof.
  intros name bp. unfold processAppDomain. fold name.
  destruct (negb (ForceSync (config d)) && isProcessed d name); [now left | right].
  destruct (String.eqb_spec (Domain_Host domain) "") as [Hh|Hh]; [now left | right].
  destruct (Z.eqb_spec (resolveTargetPort app domain) 0) as [H0|_].
  { pose proof (resolveTargetPort_positive app domain). lia. }
  fold bp. destruct (createBlueprintWithRetry bp d) as [r d1].
  repeat split; [exact Hh|]. exists r, d1. split; [reflexivity|]. now destruct r.
Qed.

Lemma isProcessed_markProcessed (n name : string) (d : DockOtter) :
  isProcessed (markProcessed n d) name
  = if decide (n = name) then true else isProcessed d name.
Proof.
  unfold isProcessed, markProcessed. cbn. rewrite lookup_insert.
  now destruct (decide (n = name)).
Qed.

(** [processAppDomain] keeps the configuration, only adds to the history,
    and touches the ledger only to mark its own name, which it does exactly
    when its blueprint was accepted. *)
Lemma processAppDomain_run (app : DokployApp) (domain : DokployDomain)
    (d d' : DockOtter) (r : option error) :
  let name := generateResourceName (App_Name app) (Domain_Host domain) in
  processAppDomain app domain d = (r, d') ->
  config d' = config d
  /\ exists evs, history d' = history d ++ evs
       /\ ((processedApps d' = processedApps d /\ publishedNames evs = [])
           \/ (negb (ForceSync (config d)) && isProcessed d name = false
               /\ r = None
               /\ processedApps d' = <[name := true]> (processedApps d)
               /\ publishedNames evs = [name])).
Proof.
  intros name.
  destruct (processAppDomain_cases app domain d)
    as [[_ ->] | [(_ & _ & ->) | (Hg & _ & r1 & d1 & E & ->)]].
  - intros [= <- <-]. split; [reflexivity|]. exists [].
    split; [now rewrite app_nil_r | now left].
  - intros [= <- <-]. split; [reflexivity|]. exists [].
    split; [now rewrite app_nil_r | now left].
  - apply createBlueprintWithRetry_run in E as (Hc & Hp & evs & Hh & _ & Hn).
    destruct r1 as [e|]; intros [= <- <-].
    + split; [exact Hc|]. exists evs. split; [exact Hh|]. now left.
    + split; [exact Hc|]. exists evs. split; [exact Hh|]. right.
      cbn. rewrite Hp. now repeat split.
Qed.

(** ** The ledger only grows *)

Lemma marked_send (name : string) (r : Request) :
  preserves (fun d => isProcessed d name = true) (send r).
Proof. now intros d. Qed.

Lemma marked_emit (name : string) (e : Event) :
  preserves (fun d => isProcessed d name = true) (emit e).
Proof. now intros d. Qed.

Lemma marked_processAppDomain (name : string) (app : DokployApp) (domain : DokployDomain) :
  preserves (fun d => isProcessed d name = true) (processAppDomain app domain).
Proof.
  intros d Hd. destruct (processAppDomain app domain d) as [r d'] eqn:E.
  apply processAppDomain_run in E as (_ & evs & _ & [[Hp _] | (_ & _ & Hp & _)]);
    cbn; unfold isProcessed in *; rewrite Hp; [exact Hd|].
  rewrite lookup_insert. now destruct (decide _).
Qed.

Lemma marked_later (name : string) (d d' : DockOtter) :
  rtc step d d' -> isProcessed d name = true -> isProcessed d' name = true.
Proof.
  apply (later_preserves (fun d => isProcessed d name = true)).
  - apply marked_send.
  - intros p s e. apply marked_emit.
  - apply marked_processAppDomain.
Qed.

(** ** At most one publication per name *)

Lemma guarded_record (e : Event) (d : DockOtter) :
  attempts [e] = [] -> guarded d -> guarded (record e d).
Proof.
  intros He (Hf & Hn & Hl).
  assert (Hnil : publishedNames [e] = []) by (unfold publishedNames; now rewrite He).
  unfold guarded, publishedOnce, isProcessed, record.
  cbn [history config processedApps].
  rewrite publishedNames_app, Hnil, app_nil_r. now repeat split.
Qed.

Lemma guarded_processAppDomain (app : DokployApp) (domain : DokployDomain) :
  preserves guarded (processAppDomain app domain).
Proof.
  intros d (Hf & Hn & Hl). destruct (processAppDomain app domain d) as [r d'] eqn:E.
  apply processAppDomain_run in E as (Hc & evs & Hh & Hcase). cbn.
  unfold guarded, publishedOnce. rewrite Hh, publishedNames_app, Hc.
  split; [exact Hf|].
  destruct Hcase as [[Hp He] | (Hg & _ & Hp & He)]; rewrite He.
  - rewrite app_nil_r. split; [exact Hn|].
    intros name Hin. unfold isProcessed. rewrite Hp. now apply Hl.
  - rewrite Hf in Hg. cbn in Hg. split.
    + apply NoDup_app. split; [exact Hn|]. split; [|apply NoDup_singleton].
      intros x Hx ->%list_elem_of_singleton.
      apply list_elem_of_In in Hx. apply Hl in Hx. congruence.
    + intros name [Hin | [<- | []]]%in_app_or; unfold isProcessed; rewrite Hp.
      * rewrite lookup_insert. destruct (decide _); [reflexivity | now apply Hl].
      * now rewrite lookup_insert_eq.
Qed.

Lemma guarded_later (d d' : DockOtter) : rtc step d d' -> guarded d -> guarded d'.
Proof.
  apply (later_preserves guarded).
  - intros r d0. now apply guarded_record.
  - intros p s e d0. now apply guarded_record.
  - apply guarded_processAppDomain.
Qed.

Lemma config_later (d d' : DockOtter) : rtc step d d' -> config d' = config d.
Proof.
  intros H. apply (later_preserves (fun x => config x = config d) ) with (d := d);
    [| | |exact H|reflexivity].
  - now intros r d0.
  - now intros p s e d0.
  - intros app domain d0 Hd0. destruct (processAppDomain app domain d0) as [r d1] eqn:E.
    apply processAppDomain_run in E as [Hc _]. cbn. congruence.
Qed.

(** With at least one attempt configured, [createBlueprintWithRetry] calls
    [createBlueprint] on its blueprint before anything else. *)
Lemma createBlueprintWithRetry_attempts (bp : PangolinBlueprint) (d : DockOtter) :
  1 <= RetryAttempts (config d) ->
  exists r d' evs r1 rest,
    createBlueprintWithRetry bp d = (r, d')
    /\ history d' = history d ++ evs
    /\ attempts evs = (bp, r1) :: rest.
Proof.
  intros HN. unfold createBlueprintWithRetry. unfold bind, getConfig. cbn beta iota.
  destruct (Z.to_nat (RetryAttempts (config d))) as [|left] eqn:En; [lia|].
  cbn [retryFrom]. unfold bind at 1.
  destruct (createBlueprint bp d) as [r1 d1] eqn:E1.
  destruct (createBlueprint_run _ _ _ _ E1) as (Hc1 & Hp1 & evs1 & Hh1 & Ha1).
  destruct r1 as [e|].
  - unfold bind at 1, getConfig at 1. unfold bind at 1.
    destruct ((if 1 <? RetryAttempts (config d1)
               then sleep (RetryDelay (config d1)) else ret tt) d1) as [u d2] eqn:E2.
    assert (H2 : exists evs2, history d2 = history d1 ++ evs2 /\ attempts evs2 = []).
    { destruct (1 <? RetryAttempts (config d1)); run; injection E2 as <- <-; cbn.
      - now eexists [_].
      - exists []. now rewrite app_nil_r. }
    destruct H2 as (evs2 & Hh2 & Ha2).
    destruct (retryFrom left (1 + 1) (Some e) bp d2) as [r d'] eqn:E3.
    destruct (retryFrom_run _ _ _ _ _ _ _ E3) as (_ & _ & evs3 & Hh3 & _ & _).
    exists r, d', (evs1 ++ evs2 ++ evs3), (Some e), (attempts evs3). repeat split.
    + rewrite Hh3, Hh2, Hh1. now rewrite <- !app_assoc.
    + now rewrite !attempts_app, Ha1, Ha2.
  - exists None, d1, evs1, None, []. now repeat split.
Qed.

(** C3. With the override off, no resource name is accepted by the target
    twice in the life of a process, however many passes run.  Once a binding
    has been processed with success its name is in the ledger, and in every
    later state a binding deriving that name is returned at once, the state
    untouched.  With the override on, a binding with a host is sent to the
    publisher whatever the ledger holds. *)
Theorem published_at_most_once :
  (forall (cfg : Config) (d : DockOtter),
      ForceSync cfg = false ->
      rtc step (NewDockOtter cfg) d ->
      NoDup (publishedNames (history d)))
  /\ (forall (app app' : DokployApp) (domain domain' : DokployDomain) (d0 d1 d2 : DockOtter),
      ForceSync (config d0) = false ->
      processAppDomain app domain d0 = (None, d1) ->
      rtc step d1 d2 ->
      generateResourceName (App_Name app') (Domain_Host domain')
      = generateResourceName (App_Name app) (Domain_Host domain) ->
      isProcessed d1 (generateResourceName (App_Name app) (Domain_Host domain)) = true
      /\ processAppDomain app' domain' d2 = (None, d2))
  /\ (forall (app : DokployApp) (domain : DokployDomain) (d : DockOtter),
      ForceSync (config d) = true ->
      Domain_Host domain <> "" ->
      1 <= RetryAttempts (config d) ->
      exists r d' evs r1 rest,
        processAppDomain app domain d = (r, d')
        /\ history d' = history d ++ evs
        /\ attempts evs
           = (blueprintFor (generateResourceName (App_Name app) (Domain_Host domain))
                app domain (resolveTargetPort app domain), r1) :: rest).
Proof.
  split; [|split].
  - intros cfg d Hf Hlater.
    apply (guarded_later _ _ Hlater). repeat split; [exact Hf | constructor | intros name []].
  - intros app app' domain domain' d0 d1 d2 Hf E Hlater Hname.
    set (name := generateResourceName (App_Name app) (Domain_Host domain)) in *.
    assert (Hc1 : config d1 = config d0).
    { now apply processAppDomain_run in E as [Hc _]. }
    assert (H1 : isProcessed d1 name = true).
    { destruct (processAppDomain_cases app domain d0)
        as [[Hg E'] | [(_ & _ & E') | (_ & _ & r & d' & _ & E')]];
        rewrite E' in E.
      - assert (d1 = d0) as -> by congruence. rewrite Hf in Hg. exact Hg.
      - discriminate.
      - destruct r; [discriminate|].
        injection E as <-.
        rewrite isProcessed_markProcessed. now destruct (decide _). }
    split; [exact H1|].
    unfold processAppDomain. rewrite Hname. fold name.
    rewrite (marked_later name _ _ Hlater H1), (config_later _ _ Hlater), Hc1, Hf.
    reflexivity.
  - intros app domain d Hf Hhost HN.
    destruct (processAppDomain_cases app domain d)
      as [[Hg _] | [(_ & Hh & _) | (_ & _ & r & d1 & E & E')]].
    + rewrite Hf in Hg. discriminate.
    + contradiction.
    + destruct (createBlueprintWithRetry_attempts
                  (blueprintFor (generateResourceName (App_Name app) (Domain_Host domain))
                     app domain (resolveTargetPort app domain)) d HN)
        as (r' & d' & evs & r1 & rest & Er & Hh & Ha).
      rewrite Er in E. injection E as <- <-. rewrite E'.
      destruct r' as [e|].
      * now exists (Some (FailedToCreateBlueprint e)), d', evs, r1, rest.
      * now exists None,
          (markProcessed (generateResourceName (App_Name app) (Domain_Host domain)) d'),
          evs, r1, rest.
Qed.

(** C6, as the program has it.  A binding with an empty host whose derived
    name is not held back by the ledger (the name is not marked, or the
    override is on) fails with the empty-host error and changes nothing; the
    loop over the bindings adds one to [errors] (as a 64-bit [int] does),
    leaves [processed] and [skipped], and goes on with the bindings that
    follow. *)
Theorem empty_host_rejected (app : DokployApp) (domain : DokployDomain)
    (rest : list DokployDomain) (c : Counters) (d : DockOtter) :
  Domain_Host domain = "" ->
  negb (ForceSync (config d))
  && isProcessed d (generateResourceName (App_Name app) (Domain_Host domain)) = false ->
  processAppDomain app domain d = (Some DomainHostEmpty, d)
  /\ rangeDomains app (domain :: rest) c d = rangeDomains app rest (countError c) d
  /\ rangeDomains app (domain :: rest) c d
     = rangeDomains app rest
         {| processed := processed c;
            skipped := skipped c;
            errors := (errors c + 1 + 2 ^ 63) mod 2 ^ 64 - 2 ^ 63 |} d
  /\ (0 <= errors c < 2 ^ 63 - 1 ->
      rangeDomains app [domain] c d
      = ({| processed := processed c; skipped := skipped c; errors := errors c + 1 |}, d)).
Proof.
  intros Hhost Hgate.
  assert (E : processAppDomain app domain d = (Some DomainHostEmpty, d)).
  { unfold processAppDomain. rewrite Hgate, Hhost. reflexivity. }
  split; [exact E|]. split; [|split].
  - cbn [rangeDomains]. unfold bind. now rewrite E.
  - cbn [rangeDomains]. unfold bind. now rewrite E.
  - intros Hrange. cbn [rangeDomains]. unfold bind, ret. rewrite E.
    unfold countError, incr, wrapInt. rewrite Z.mod_small by lia.
    do 2 f_equal. lia.
Qed.

(** C7. [resolveTargetPort] is positive on every input, and no call of
    [processAppDomain] returns the no-port error. *)
Theorem no_port_unreachable :
  (forall (app : DokployApp) (domain : DokployDomain), 0 < resolveTargetPort app domain)
  /\ (forall (app : DokployApp) (domain : DokployDomain) (d : DockOtter),
      isNoPortAvailable (fst (processAppDomain app domain d)) = false).
Proof.
  split; [apply resolveTargetPort_positive|].
  intros app domain d.
  destruct (processAppDomain_cases app domain d)
    as [[_ ->] | [(_ & _ & ->) | (_ & _ & r & d1 & _ & ->)]]; try reflexivity.
  now destruct r.
Qed.

(** C8. When the inventory cannot be fetched, [syncApps] returns the fetch
    error wrapped, in the state the reader left: the ledger and the
    configuration are those before the pass, and the history has grown by
    the four requests to the source only, with no call of the publisher and
    no counters. *)
Theorem fetch_failure_aborts (d d1 : DockOtter) (err : error) :
  getDokployProjects d = (inl err, d1) ->
  syncApps d = (Some (FailedToGetProjects err), d1)
  /\ processedApps d1 = processedApps d
  /\ config d1 = config d
  /\ history d1 = history d ++ tried (config d) endpoints
  /\ attempts (tried (config d) endpoints) = [].
Proof.
  intros E. split.
  - unfold syncApps, bind. now rewrite E.
  - apply tryEndpoints_run in E as (Hc & Hp & Hh & _).
    split; [exact Hp|]. split; [exact Hc|]. split; [exact Hh | apply attempts_tried].
Qed.

(** C10. With the override off, a binding whose derived name is marked in
    the ledger is returned at once with [nil], whatever its host and ports
    are: the state, history included, is untouched, and the loop over the
    bindings adds one to [processed] (as a 64-bit [int] does) and leaves
    [skipped] and [errors]. *)
Theorem ledger_hit_counts_processed (app : DokployApp) (domain : DokployDomain)
    (rest : list DokployDomain) (c : Counters) (d : DockOtter) :
  ForceSync (config d) = false ->
  isProcessed d (generateResourceName (App_Name app) (Domain_Host domain)) = true ->
  processAppDomain app domain d = (None, d)
  /\ rangeDomains app (domain :: rest) c d
     = rangeDomains app rest
         {| processed := (processed c + 1 + 2 ^ 63) mod 2 ^ 64 - 2 ^ 63;
            skipped := skipped c;
            errors := errors c |} d
  /\ rangeDomains app [domain] c d
     = ({| processed := (processed c + 1 + 2 ^ 63) mod 2 ^ 64 - 2 ^ 63;
           skipped := skipped c;
           errors := errors c |}, d)
  /\ (0 <= processed c < 2 ^ 63 - 1 ->
      rangeDomains app [domain] c d
      = ({| processed := processed c + 1; skipped := skipped c; errors := errors c |}, d)).
Proof.
  intros Hf Hp.
  assert (E : processAppDomain app domain d = (None, d)).
  { unfold processAppDomain. rewrite Hf, Hp. reflexivity. }
  split; [exact E|]. split; [|split].
  - cbn [rangeDomains]. unfold bind. now rewrite E.
  - cbn [rangeDomains]. unfold bind. now rewrite E.
  - intros Hrange. cbn [rangeDomains]. unfold bind, ret. rewrite E.
    unfold countProcessed, incr, wrapInt. rewrite Z.mod_small by lia.
    do 2 f_equal. lia.
Qed.

(** ** A pass against a publisher that accepts *)

Lemma createBlueprintWithRetry_accepts (bp : PangolinBlueprint) (d : DockOtter) :
  alwaysAccepts ->
  1 <= RetryAttempts (config d) ->
  exists d1, createBlueprintWithRetry bp d = (None, d1)
             /\ config d1 = config d /\ processedApps d1 = processedApps d.
Proof.
  intros Hacc HN. unfold createBlueprintWithRetry. unfold bind, getConfig. cbn beta iota.
  destruct (Z.to_nat (RetryAttempts (config d))) as [|left] eqn:En; [lia|].
  cbn [retryFrom]. unfold bind at 1.
  destruct (createBlueprint bp d) as [r1 d1] eqn:E1.
  destruct (createBlueprint_run _ _ _ _ E1) as (Hc1 & Hp1 & _).
  specialize (Hacc bp d). rewrite E1 in Hacc. cbn in Hacc. subst r1.
  exists d1. now repeat split.
Qed.

Lemma tally_counts (l : list (DokployApp * DokployDomain)) :
  forall c : Counters,
    fold_left tally l c
    = {| processed :=
           Nat.iter (length (List.filter (fun b => negb (emptyHost b)) l)) incr (processed c);
         skipped := skipped c;
         errors := Nat.iter (length (List.filter emptyHost l)) incr (errors c) |}.
Proof.
  induction l as [|b l IH]; intros c; [now destruct c|].
  cbn [fold_left List.filter]. rewrite IH. unfold tally.
  destruct (emptyHost b); cbn [negb length countError countProcessed processed skipped errors];
    now rewrite Nat.iter_succ_r.
Qed.

Section Isolation.

(** [bad] holds of the names derived by the bindings without a host. *)
Variable bad : string -> Prop.
Hypothesis accepts : alwaysAccepts.

Lemma processAppDomain_isolated (app : DokployApp) (domain : DokployDomain)
    (c : Counters) (d : DockOtter) :
  sorted bad (app, domain) -> clear bad d ->
  exists r d',
    processAppDomain app domain d = (r, d')
    /\ match r with Some _ => countError c | None => countProcessed c end
       = tally c (app, domain)
    /\ clear bad d'.
Proof.
  unfold sorted, tally, emptyHost, bindingName. cbn [fst snd].
  intros Hs (HN & Hclear).
  destruct (processAppDomain_cases app domain d)
    as [[Hg ->] | [(Hg & Hh & ->) | (Hg & Hh & r & d1 & E & ->)]].
  - destruct (String.eqb_spec (Domain_Host domain) "") as [He|He].
    + apply Hclear in Hs. congruence.
    + exists None, d. now repeat split.
  - exists (Some DomainHostEmpty), d. rewrite Hh. now repeat split.
  - destruct (String.eqb_spec (Domain_Host domain) "") as [He|_]; [contradiction|].
    destruct (createBlueprintWithRetry_accepts
                (blueprintFor (generateResourceName (App_Name app) (Domain_Host domain))
                   app domain (resolveTargetPort app domain)) d accepts HN)
      as (d1' & E' & Hc & Hp).
    rewrite E' in E. injection E as <- <-.
    eexists None, _. split; [reflexivity|]. split; [reflexivity|].
    split; [cbn [config markProcessed]; now rewrite Hc|].
    intros n Hn. rewrite isProcessed_markProcessed. cbn [config markProcessed]. rewrite Hc.
    destruct (decide _) as [Heq|_]; [subst n; contradiction|].
    specialize (Hclear n Hn). unfold isProcessed in *. now rewrite Hp.
Qed.

End Isolation.

(** ** The shape of a pass *)

Lemma processBindings_app (l1 l2 : list (DokployApp * DokployDomain)) :
  forall (c : Counters) (d : DockOtter),
    processBindings (l1 ++ l2) c d
    = processBindings l2 (fst (processBindings l1 c d)) (snd (processBindings l1 c d)).
Proof.
  induction l1 as [|b l1 IH]; intros c d; [reflexivity|].
  cbn [app processBindings]. unfold bind.
  destruct (processAppDomain (fst b) (snd b) d) as [err d1]. apply IH.
Qed.

Lemma rangeDomains_processBindings (app : DokployApp) (domains : list DokployDomain) :
  forall (c : Counters) (d : DockOtter),
    rangeDomains app domains c d = processBindings (map (pair app) domains) c d.
Proof.
  induction domains as [|domain rest IH]; intros c d; [reflexivity|].
  cbn [rangeDomains map processBindings fst snd]. unfold bind.
  destruct (processAppDomain app domain d) as [err d1]. apply IH.
Qed.

Lemma processBindings_skipMany (n : nat) (bs : list (DokployApp * DokployDomain)) :
  forall (c : Counters) (d : DockOtter),
    processBindings bs (skipMany n c) d
    = (skipMany n (fst (processBindings bs c d)), snd (processBindings bs c d)).
Proof.
  induction bs as [|b rest IH]; intros c d; [reflexivity|].
  cbn [processBindings]. unfold bind.
  destruct (processAppDomain (fst b) (snd b) d) as [[e|] d1].
  - apply (IH (countError c)).
  - apply (IH (countProcessed c)).
Qed.

Lemma skipMany_add (n m : nat) (c : Counters) :
  skipMany n (skipMany m c) = skipMany (n + m) c.
Proof. unfold skipMany. cbn. now rewrite Nat.iter_add. Qed.

Lemma syncApp_eligible (app : DokployApp) (c : Counters) :
  syncApp app c
  = if eligible app then rangeDomains app (App_Domains app) c else ret (countSkipped c).
Proof.
  unfold syncApp, eligible.
  destruct (String.eqb (App_Status app) "done"); [|reflexivity].
  now destruct (length (App_Domains app) =? 0)%nat.
Qed.

Lemma rangeApps_flat (apps : list DokployApp) :
  forall (c : Counters) (d : DockOtter),
    rangeApps apps c d
    = (skipMany (length (List.filter (fun app => negb (eligible app)) apps))
         (fst (processBindings (flat_map appBindings (List.filter eligible apps)) c d)),
       snd (processBindings (flat_map appBindings (List.filter eligible apps)) c d)).
Proof.
  induction apps as [|app rest IH]; intros c d.
  - cbn. now destruct c.
  - cbn [rangeApps List.filter]. unfold bind. rewrite syncApp_eligible.
    destruct (eligible app); cbn [negb flat_map length].
    + rewrite rangeDomains_processBindings. fold (appBindings app).
      rewrite processBindings_app.
      destruct (processBindings (appBindings app) c d) as [c1 d1]. apply IH.
    + cbn [ret]. rewrite IH.
      change (countSkipped c) with (skipMany 1 c).
      rewrite processBindings_skipMany. cbn [fst snd].
      now rewrite skipMany_add, Nat.add_comm.
Qed.

Lemma rangeProjects_flat :
  forall (projects : list DokployProject) (c : Counters) (d : DockOtter),
    rangeProjects projects c d
    = (skipMany (length (skippedEntries projects))
         (fst (processBindings (eligibleBindings projects) c d)),
       snd (processBindings (eligibleBindings projects) c d)).
Proof.
  unfold skippedEntries, eligibleBindings.
  induction projects as [|p rest IH]; intros c d.
  - cbn. now destruct c.
  - cbn [rangeProjects entries flat_map]. fold (entries rest). unfold bind.
    rewrite !List.filter_app, !flat_map_app, !length_app, !processBindings_app.
    rewrite (rangeApps_flat (Project_Applications p)).
    destruct (processBindings
                (flat_map appBindings (List.filter eligible (Project_Applications p))) c d)
      as [c1 d1].
    cbn [fst snd].
    rewrite (rangeApps_flat (Project_Compose p)), processBindings_skipMany.
    destruct (processBindings
                (flat_map appBindings (List.filter eligible (Project_Compose p))) c1 d1)
      as [c2 d2].
    cbn [fst snd].
    rewrite IH, skipMany_add, processBindings_skipMany. cbn [fst snd].
    rewrite skipMany_add. do 2 f_equal. lia.
Qed.

(** X1. A pass is [processAppDomain] run over the bindings of the eligible
    entries, project by project, applications before compose applications.
    An entry whose status is not exactly "done", or that has no binding,
    adds one to [skipped] and nothing else: none of its bindings is
    processed and the state is left as it was. *)
Theorem pass_is_walk_over_eligible_bindings :
  (forall (projects : list DokployProject) (c : Counters) (d : DockOtter),
      rangeProjects projects c d
      = (skipMany (length (skippedEntries projects))
           (fst (processBindings (eligibleBindings projects) c d)),
         snd (processBindings (eligibleBindings projects) c d)))
  /\ (forall (app : DokployApp) (c : Counters) (d : DockOtter),
      eligible app = false -> syncApp app c d = (countSkipped c, d))
  /\ (forall app : DokployApp,
      eligible app = true
      <-> App_Status app = "done" /\ App_Domains app <> []).
Proof.
  split; [exact rangeProjects_flat|]. split.
  - intros app c d He. now rewrite syncApp_eligible, He.
  - intros app. unfold eligible. rewrite andb_true_iff, negb_true_iff.
    destruct (String.eqb_spec (App_Status app) "done") as [Hs|Hs];
      destruct (App_Domains app) as [|dom doms]; cbn; split;
      intros [H1 H2]; try discriminate; try contradiction; now split.
Qed.

Lemma incr_small (z : Z) : 0 <= z -> z + 1 < 2 ^ 63 -> incr z = z + 1.
Proof.
  intros H0 H1. unfold incr, wrapInt.
  rewrite Z.mod_small; lia.
Qed.

Lemma iter_incr_small (n : nat) :
  Z.of_nat n < 2 ^ 63 -> Nat.iter n incr 0 = Z.of_nat n.
Proof.
  induction n as [|n IH]; intros Hn; [reflexivity|].
  rewrite Nat.iter_succ, IH by lia. rewrite incr_small; lia.
Qed.

Lemma processBindings_counts (bs : list (DokployApp * DokployDomain)) :
  forall (c : Counters) (d : DockOtter),
  exists p e : nat,
    (p + e = length bs)%nat
    /\ fst (processBindings bs c d)
       = {| processed := Nat.iter p incr (processed c);
            skipped := skipped c;
            errors := Nat.iter e incr (errors c) |}.
Proof.
  induction bs as [|b rest IH]; intros c d.
  - exists 0%nat, 0%nat. split; [reflexivity | now destruct c].
  - cbn [processBindings]. unfold bind.
    destruct (processAppDomain (fst b) (snd b) d) as [[err|] d1].
    + destruct (IH (countError c) d1) as (p & e & Hpe & ->).
      exists p, (S e). split; [cbn; lia|]. cbn [countError processed skipped errors].
      now rewrite Nat.iter_succ_r.
    + destruct (IH (countProcessed c) d1) as (p & e & Hpe & ->).
      exists (S p), e. split; [cbn; lia|]. cbn [countProcessed processed skipped errors].
      now rewrite Nat.iter_succ_r.
Qed.

(** X2. When the inventory is fetched, [syncApps] returns [nil] whatever
    happens to the bindings, and the last thing in its history is the
    counters: [skipped] is the number of skipped entries and [processed]
    and [errors] add up to the number of bindings of the eligible entries
    (for an inventory small enough for an [int]). *)
Theorem sync_report_adds_up (projects : list DokployProject) (d d1 : DockOtter) :
  getDokployProjects d = (inr projects, d1) ->
  Z.of_nat (length (eligibleBindings projects)) < 2 ^ 63 ->
  Z.of_nat (length (skippedEntries projects)) < 2 ^ 63 ->
  exists p e : nat,
    (p + e = length (eligibleBindings projects))%nat
    /\ syncApps d
       = (None,
          record (SyncCompleted (Z.of_nat p)
                    (Z.of_nat (length (skippedEntries projects))) (Z.of_nat e))
            (snd (processBindings (eligibleBindings projects) (mkCounters 0 0 0) d1))).
Proof.
  intros Efetch Hb Hs.
  destruct (processBindings_counts (eligibleBindings projects) (mkCounters 0 0 0) d1)
    as (p & e & Hpe & Hc).
  exists p, e. split; [exact Hpe|].
  unfold syncApps, bind. rewrite Efetch, rangeProjects_flat, Hc.
  unfold emit, ret, skipMany. cbn [processed skipped errors].
  rewrite !iter_incr_small by lia. reflexivity.
Qed.

(** ** A pass over what is already published *)

Lemma processAppDomain_settled (app : DokployApp) (domain : DokployDomain) (d : DockOtter) :
  ForceSync (config d) = false ->
  (emptyHost (app, domain) = false -> isProcessed d (bindingName (app, domain)) = true) ->
  snd (processAppDomain app domain d) = d.
Proof.
  unfold emptyHost, bindingName. cbn [fst snd]. intros Hf Hm.
  destruct (processAppDomain_cases app domain d)
    as [[_ ->] | [(_ & _ & ->) | (Hg & Hh & _)]]; try reflexivity.
  rewrite Hf in Hg. cbn in Hg.
  destruct (String.eqb_spec (Domain_Host domain) "") as [|_]; [contradiction|].
  rewrite Hm in Hg by reflexivity. discriminate.
Qed.

Lemma processBindings_settled (bs : list (DokployApp * DokployDomain)) :
  forall (c : Counters) (d : DockOtter),
    ForceSync (config d) = false ->
    (forall b, In b bs -> emptyHost b = false -> isProcessed d (bindingName b) = true) ->
    snd (processBindings bs c d) = d.
Proof.
  induction bs as [|[app domain] rest IH]; intros c d Hf Hm; [reflexivity|].
  cbn [processBindings fst snd]. unfold bind.
  pose proof (processAppDomain_settled app domain d Hf (Hm _ (or_introl eq_refl))) as E.
  destruct (processAppDomain app domain d) as [err d1]. cbn in E. subst d1.
  apply IH; [exact Hf|]. intros b Hb. apply Hm. now right.
Qed.

Lemma processBindings_later (bs : list (DokployApp * DokployDomain)) :
  forall (c : Counters) (d : DockOtter), rtc step d (snd (processBindings bs c d)).
Proof.
  induction bs as [|b rest IH]; intros c d; [apply rtc_refl|].
  cbn [processBindings]. unfold bind.
  destruct (processAppDomain (fst b) (snd b) d) as [err d2] eqn:E.
  apply rtc_l with d2; [|apply IH].
  replace d2 with (snd (processAppDomain (fst b) (snd b) d)) by now rewrite E.
  apply step_processAppDomain.
Qed.

Lemma processAppDomain_marks (app : DokployApp) (domain : DokployDomain) (d : DockOtter) :
  alwaysAccepts ->
  1 <= RetryAttempts (config d) ->
  emptyHost (app, domain) = false ->
  isProcessed (snd (processAppDomain app domain d)) (bindingName (app, domain)) = true.
Proof.
  unfold emptyHost, bindingName. cbn [fst snd]. intros Hacc HN Hh.
  destruct (processAppDomain_cases app domain d)
    as [[Hg ->] | [(_ & He & _) | (_ & _ & r & d1 & E & ->)]].
  - now apply andb_prop in Hg as [_ Hg].
  - rewrite He in Hh. discriminate.
  - destruct (createBlueprintWithRetry_accepts
                (blueprintFor (generateResourceName (App_Name app) (Domain_Host domain))
                   app domain (resolveTargetPort app domain)) d Hacc HN)
      as (d1' & E' & _).
    rewrite E' in E. injection E as <- <-. cbn [snd].
    rewrite isProcessed_markProcessed. now destruct (decide _).
Qed.

Lemma processBindings_marks (bs : list (DokployApp * DokployDomain)) :
  alwaysAccepts ->
  forall (c : Counters) (d : DockOtter),
    1 <= RetryAttempts (config d) ->
    forall b, In b bs -> emptyHost b = false ->
              isProcessed (snd (processBindings bs c d)) (bindingName b) = true.
Proof.
  intros Hacc. induction bs as [|[app domain] rest IH]; intros c d HN b Hb Hh; [destruct Hb|].
  cbn [processBindings fst snd]. unfold bind.
  destruct (processAppDomain app domain d) as [err d1] eqn:E.
  assert (Hstep : rtc step d d1).
  { apply rtc_once. replace d1 with (snd (processAppDomain app domain d)) by now rewrite E.
    apply step_processAppDomain. }
  assert (HN1 : 1 <= RetryAttempts (config d1)) by now rewrite (config_later _ _ Hstep).
  set (c1 := match err with Some _ => countError c | None => countProcessed c end).
  destruct Hb as [<- | Hb]; [|now apply IH].
  pose proof (processAppDomain_marks app domain d Hacc HN Hh) as Hm.
  rewrite E in Hm. cbn [snd] in Hm.
  exact (marked_later _ _ _ (processBindings_later rest c1 d1) Hm).
Qed.

(** X3. With the override off and a target that accepts, a pass leaves
    nothing to do: after it, a pass over the same inventory leaves the
    state as it finds it, so no request is sent and no name is marked. *)
Theorem second_pass_changes_nothing (projects : list DokployProject)
    (c c' : Counters) (d : DockOtter) :
  alwaysAccepts ->
  1 <= RetryAttempts (config d) ->
  ForceSync (config d) = false ->
  snd (rangeProjects projects c' (snd (rangeProjects projects c d)))
  = snd (rangeProjects projects c d).
Proof.
  intros Hacc HN Hf. rewrite !rangeProjects_flat. cbn [snd].
  set (bs := eligibleBindings projects).
  pose proof (processBindings_later bs c d) as Hlater.
  apply processBindings_settled.
  - now rewrite (config_later _ _ Hlater).
  - intros b Hb Hh. now apply processBindings_marks.
Qed.

(** ** One hostless binding among hosted ones *)

Lemma filter_none {A} (f : A -> bool) (l : list A) :
  Forall (fun x => f x = false) l -> List.filter f l = [].
Proof.
  induction 1 as [|x l Hx _ IH]; [reflexivity|]. cbn. now rewrite Hx.
Qed.

Lemma filter_all {A} (f : A -> bool) (l : list A) :
  Forall (fun x => f x = true) l -> List.filter f l = l.
Proof.
  induction 1 as [|x l Hx _ IH]; [reflexivity|]. cbn. now rewrite Hx, IH.
Qed.

Lemma processBindings_isolated (bad : string -> Prop)
    (bs : list (DokployApp * DokployDomain)) :
  alwaysAccepts ->
  forall (c : Counters) (d : DockOtter),
    Forall (sorted bad) bs -> clear bad d ->
    exists d', processBindings bs c d = (fold_left tally bs c, d') /\ clear bad d'.
Proof.
  intros Hacc. induction bs as [|[app domain] rest IH]; intros c d Hs Hd.
  - now exists d.
  - inversion Hs as [|b l Hb Hrest]; subst.
    destruct (processAppDomain_isolated bad Hacc app domain c d Hb Hd)
      as (r & d1 & E & Ht & Hd1).
    destruct (IH (tally c (app, domain)) d1 Hrest Hd1) as (d' & E' & Hd').
    exists d'. split; [|exact Hd'].
    cbn [processBindings fold_left fst snd]. unfold bind. now rewrite E, Ht.
Qed.

(** C9, as the program has it.  A pass over a fresh ledger in which every
    entry is eligible, one binding has no host and two have one, against a
    publisher that accepts: provided the override is on or no binding that
    the pass reaches before the hostless one derives its name, the hostless
    binding fails alone, the pass goes on and returns [nil], and the
    counters it logs are processed 2, skipped 0, errors 1. *)
Theorem partial_failure_isolation (projects : list DokployProject) (d d1 : DockOtter)
    (before after : list (DokployApp * DokployDomain)) (hostless : DokployApp * DokployDomain) :
  processedApps d = ∅ ->
  1 <= RetryAttempts (config d) ->
  alwaysAccepts ->
  getDokployProjects d = (inr projects, d1) ->
  Forall (fun app => eligible app = true) (entries projects) ->
  bindings projects = before ++ hostless :: after ->
  emptyHost hostless = true ->
  Forall (fun b => emptyHost b = false) (before ++ after) ->
  length (before ++ after) = 2%nat ->
  ForceSync (config d) = true
  \/ Forall (fun b => bindingName b <> bindingName hostless) before ->
  exists d2 d3,
    rangeProjects projects (mkCounters 0 0 0) d1 = (mkCounters 2 0 1, d2)
    /\ syncApps d = (None, d3)
    /\ history d3 = history d2 ++ [SyncCompleted 2 0 1].
Proof.
  intros Hfresh HN Hacc Efetch Helig Hsplit Hempty Hhosted Hlen Hfree.
  destruct (tryEndpoints_run _ _ _ _ _ Efetch) as (Hc & Hp & _).
  apply Forall_app in Hhosted as [Hbefore Hafter].
  set (bad := fun n => ForceSync (config d) = false /\ n = bindingName hostless).
  assert (Hsorted : Forall (sorted bad) before).
  { apply List.Forall_forall. intros b Hb. unfold sorted.
    rewrite (proj1 (List.Forall_forall _ _) Hbefore b Hb).
    intros [Hoff Hname]. destruct Hfree as [Hon | Hfree]; [congruence|].
    exact (proj1 (List.Forall_forall _ _) Hfree b Hb Hname). }
  assert (Hclear : clear bad d1).
  { split; [now rewrite Hc|]. intros n _. unfold isProcessed.
    rewrite Hp, Hfresh, lookup_empty. apply andb_false_r. }
  destruct (processBindings_isolated bad before Hacc (mkCounters 0 0 0) d1 Hsorted Hclear)
    as (dA & EA & HNA & HclearA).
  assert (HcA : config dA = config d).
  { replace dA with (snd (processBindings before (mkCounters 0 0 0) d1)) by now rewrite EA.
    now rewrite (config_later _ _ (processBindings_later before (mkCounters 0 0 0) d1)). }
  assert (Ehostless : processAppDomain (fst hostless) (snd hostless) dA
                      = (Some DomainHostEmpty, dA)).
  { unfold processAppDomain.
    replace (negb (ForceSync (config dA))
             && isProcessed dA (generateResourceName (App_Name (fst hostless))
                                  (Domain_Host (snd hostless)))) with false.
    - unfold emptyHost in Hempty. now rewrite Hempty.
    - symmetry. destruct (ForceSync (config d)) eqn:Hforce.
      + now rewrite HcA, Hforce.
      + apply HclearA. now split. }
  assert (HsortedB : Forall (sorted (fun _ => False)) after).
  { eapply List.Forall_impl; [|exact Hafter]. intros b Hb. unfold sorted. rewrite Hb. tauto. }
  assert (HclearB : clear (fun _ => False) dA) by (split; [exact HNA | tauto]).
  destruct (processBindings_isolated (fun _ => False) after Hacc
              (countError (fold_left tally before (mkCounters 0 0 0))) dA HsortedB HclearB)
    as (dB & EB & _).
  assert (Erange : rangeProjects projects (mkCounters 0 0 0) d1 = (mkCounters 2 0 1, dB)).
  { rewrite rangeProjects_flat. unfold eligibleBindings, skippedEntries.
    rewrite (filter_all eligible _ Helig).
    rewrite (filter_none (fun app => negb (eligible app)) (entries projects))
      by (eapply List.Forall_impl; [|exact Helig]; intros app ->; reflexivity).
    fold (bindings projects). rewrite Hsplit, processBindings_app, EA.
    cbn [fst snd processBindings]. unfold bind. rewrite Ehostless, EB. cbn [fst snd].
    rewrite !tally_counts, (filter_none _ _ Hbefore), (filter_none _ _ Hafter).
    rewrite (filter_all (fun b => negb (emptyHost b)) before)
      by (eapply List.Forall_impl; [|exact Hbefore]; intros b ->; reflexivity).
    rewrite (filter_all (fun b => negb (emptyHost b)) after)
      by (eapply List.Forall_impl; [|exact Hafter]; intros b ->; reflexivity).
    rewrite length_app in Hlen.
    cbn [countError processed skipped errors length Nat.iter].
    rewrite <- Nat.iter_add. replace (length after + length before)%nat with 2%nat by lia.
    reflexivity. }
  exists dB, (record (SyncCompleted 2 0 1) dB). split; [exact Erange|].
  split; [|reflexivity].
  unfold syncApps, bind. rewrite Efetch, Erange. reflexivity.
Qed.

(** ** What holds in every state of a process *)

Lemma wellFormed_blueprintFor (app : DokployApp) (domain : DokployDomain) :
  Domain_Host domain <> "" ->
  wellFormed (blueprintFor (generateResourceName (App_Name app) (Domain_Host domain))
                app domain (resolveTargetPort app domain)).
Proof.
  intros Hh. unfold wellFormed, blueprintFor.
  eexists _, _, _, _, _, _. split; [reflexivity|].
  split; [|split; [exact Hh|split; [apply resolveTargetPort_positive|]]].
  - rewrite generateResourceName_derivedName. apply derivedName_length.
  - destruct (String.eqb_spec (Domain_Path domain) "") as [|Hp]; cbn; [discriminate|].
    destruct (String.eqb (Domain_Path domain) "/"); cbn; [discriminate | exact Hp].
Qed.

Lemma processAppDomain_attempts (app : DokployApp) (domain : DokployDomain)
    (d d' : DockOtter) (r : option error) :
  processAppDomain app domain d = (r, d') ->
  exists evs, history d' = history d ++ evs
              /\ Forall (fun a => wellFormed (fst a)) (attempts evs).
Proof.
  destruct (processAppDomain_cases app domain d)
    as [[_ ->] | [(_ & _ & ->) | (_ & Hh & r1 & d1 & E & ->)]].
  - intros [= <- <-]. exists []. split; [now rewrite app_nil_r | constructor].
  - intros [= <- <-]. exists []. split; [now rewrite app_nil_r | constructor].
  - apply createBlueprintWithRetry_run in E as (_ & _ & evs & Hhist & Hall & _).
    assert (Hwf : Forall (fun a => wellFormed (fst a)) (attempts evs)).
    { eapply List.Forall_impl; [|exact Hall]. intros a ->. now apply wellFormed_blueprintFor. }
    destruct r1; intros [= <- <-]; exists evs; now split.
Qed.

(** X4. Across any stretch of a process the configuration stays the same,
    the history only grows at its end, and a name marked in the ledger
    stays marked. *)
Theorem nothing_is_undone (d d' : DockOtter) :
  rtc step d d' ->
  config d' = config d
  /\ (exists evs, history d' = history d ++ evs)
  /\ (forall name, isProcessed d name = true -> isProcessed d' name = true).
Proof.
  intros Hlater. split; [now apply config_later|]. split.
  - apply (later_preserves (fun x => exists evs, history x = history d ++ evs))
      with (d := d); [| | |exact Hlater|].
    + intros r x [evs Hx]. cbn. exists (evs ++ [Sent r]). now rewrite Hx, <- app_assoc.
    + intros p s e x [evs Hx]. cbn. exists (evs ++ [SyncCompleted p s e]).
      now rewrite Hx, <- app_assoc.
    + intros app domain x [evs Hx].
      destruct (processAppDomain app domain x) as [r x'] eqn:E.
      apply processAppDomain_attempts in E as (evs' & Hx' & _). cbn.
      exists (evs ++ evs'). now rewrite Hx', Hx, <- app_assoc.
    + exists []. now rewrite app_nil_r.
  - intros name. now apply marked_later.
Qed.

(** X5. In every state of a process, whatever the override, a name is
    marked in the ledger only if the history holds a return of
    [createBlueprint] with [nil] for a blueprint of that name. *)
Theorem marked_only_when_accepted (cfg : Config) (d : DockOtter) :
  rtc step (NewDockOtter cfg) d ->
  forall name, isProcessed d name = true -> In name (publishedNames (history d)).
Proof.
  intros Hlater.
  apply (later_preserves
           (fun x => forall name, isProcessed x name = true
                                  -> In name (publishedNames (history x))))
    with (d := NewDockOtter cfg); [| | |exact Hlater|].
  - intros r x Hx name Hm. unfold send, record. cbn [snd history].
    rewrite publishedNames_app. apply in_or_app. left. now apply Hx.
  - intros p s e x Hx name Hm. unfold emit, record. cbn [snd history].
    rewrite publishedNames_app. apply in_or_app. left. now apply Hx.
  - intros app domain x Hx name.
    destruct (processAppDomain app domain x) as [r x'] eqn:E.
    apply processAppDomain_run in E as (_ & evs & Hh & Hcase). cbn [snd].
    rewrite Hh, publishedNames_app. unfold isProcessed in *.
    destruct Hcase as [[Hp He] | (_ & _ & Hp & He)]; rewrite Hp, He.
    + intros Hm. apply in_or_app. left. now apply Hx.
    + rewrite lookup_insert. destruct (decide _) as [<-|_]; intros Hm; apply in_or_app.
      * right. now left.
      * left. now apply Hx.
  - intros name Hm. unfold isProcessed in Hm. cbn in Hm. rewrite lookup_empty in Hm.
    discriminate.
Qed.

(** X6. In every state of a process, each blueprint that was handed to
    [createBlueprint] is well formed: one enabled "http" resource whose name
    has at most 63 bytes and whose domain is not empty, with one enabled
    target whose port is positive, whose path is not empty and whose method
    is "https" exactly when the resource has TLS on. *)
Theorem only_well_formed_blueprints (cfg : Config) (d : DockOtter) :
  rtc step (NewDockOtter cfg) d ->
  Forall (fun a => wellFormed (fst a)) (attempts (history d)).
Proof.
  intros Hlater.
  apply (later_preserves
           (fun x => Forall (fun a => wellFormed (fst a)) (attempts (history x))))
    with (d := NewDockOtter cfg); [| | |exact Hlater|].
  - intros r x Hx. unfold send, record. cbn [snd history].
    rewrite attempts_app. apply Forall_app. now split.
  - intros p s e x Hx. unfold emit, record. cbn [snd history].
    rewrite attempts_app. apply Forall_app. now split.
  - intros app domain x Hx.
    destruct (processAppDomain app domain x) as [r x'] eqn:E.
    apply processAppDomain_attempts in E as (evs & Hh & Hwf). cbn [snd].
    rewrite Hh, attempts_app. apply Forall_app. now split.
  - constructor.
Qed.

(** ** The retry loop in full *)

Lemma sleeps_app (l1 l2 : list Event) : sleeps (l1 ++ l2) = sleeps l1 ++ sleeps l2.
Proof. apply flat_map_app. Qed.

Lemma requests_app (l1 l2 : list Event) : requests (l1 ++ l2) = requests l1 ++ requests l2.
Proof. apply flat_map_app. Qed.

Lemma createBlueprint_trace (bp : PangolinBlueprint) (d d' : DockOtter) (r : option error) :
  createBlueprint bp d = (r, d') ->
  config d' = config d /\ processedApps d' = processedApps d
  /\ exists evs, history d' = history d ++ evs
       /\ attempts evs = [(bp, r)] /\ sleeps evs = [].
Proof.
  unfold createBlueprint. run.
  destruct (yaml_Marshal bp) as [err|yamlData].
  - intros [= <- <-]. cbn. repeat split.
    now exists [CreateBlueprintReturned bp (Some (FailedToMarshalBlueprint err))].
  - set (req := POST pangolinClient _ yamlData).
    destruct (remote (history d) req) as [err|status body].
    + intros [= <- <-]. cbn. repeat split.
      exists [Sent req; CreateBlueprintReturned bp (Some (FailedToCreateBlueprint err))].
      now rewrite <- app_assoc.
    + destruct ((status <? 200) || (status >=? 300));
        intros [= <- <-]; cbn; repeat split;
        eexists [Sent req; CreateBlueprintReturned bp _];
        now rewrite <- app_assoc.
Qed.

Lemma retryFrom_trace (bp : PangolinBlueprint) (left : nat) :
  forall (attempt : Z) (lastErr : option error) (d d' : DockOtter) (r : option error),
    ((0 < left)%nat -> attempt + Z.of_nat left = RetryAttempts (config d) + 1) ->
    retryFrom left attempt lastErr bp d = (r, d') ->
    config d' = config d /\ processedApps d' = processedApps d
    /\ exists evs failures,
         history d' = history d ++ evs
         /\ attempts evs
            = map (fun e => (bp, Some e)) failures
              ++ match r with None => [(bp, None)] | Some _ => [] end
         /\ (length (attempts evs) <= left)%nat
         /\ ((0 < left)%nat -> (0 < length (attempts evs))%nat)
         /\ sleeps evs = repeat (RetryDelay (config d)) (length (attempts evs) - 1)
         /\ match r with
            | None => True
            | Some e =>
                length failures = left
                /\ e = AllAttemptsFailed (RetryAttempts (config d))
                         (List.last (map Some failures) lastErr)
            end.
Proof.
  induction left as [|left IH]; intros attempt lastErr d d' r Hrel; cbn [retryFrom].
  - run. intros [= <- <-]. repeat split. exists [], []. rewrite app_nil_r.
    cbn. repeat split; lia.
  - unfold bind at 1.
    destruct (createBlueprint bp d) as [r1 d1] eqn:E1.
    destruct (createBlueprint_trace _ _ _ _ E1) as (Hc1 & Hp1 & evs1 & Hh1 & Ha1 & Hs1).
    destruct r1 as [e|].
    + unfold bind at 1, getConfig at 1. unfold bind at 1.
      destruct ((if attempt <? RetryAttempts (config d1)
                 then sleep (RetryDelay (config d1)) else ret tt) d1) as [u d2] eqn:E2.
      assert (H2 : config d2 = config d1 /\ processedApps d2 = processedApps d1
                   /\ exists evs2, history d2 = history d1 ++ evs2 /\ attempts evs2 = []
                        /\ sleeps evs2
                           = if (0 <? left)%nat then [RetryDelay (config d)] else []).
      { specialize (Hrel ltac:(lia)). rewrite Hc1 in E2.
        destruct (Z.ltb_spec attempt (RetryAttempts (config d)));
          destruct (Nat.ltb_spec 0 left); try lia;
          run; injection E2 as <- <-; cbn; repeat split.
        - now eexists [_].
        - exists []. now rewrite app_nil_r. }
      destruct H2 as (Hc2 & Hp2 & evs2 & Hh2 & Ha2 & Hs2).
      intros E3.
      assert (Hrel3 : (0 < left)%nat
                      -> attempt + 1 + Z.of_nat left = RetryAttempts (config d2) + 1).
      { intros Hl. rewrite Hc2, Hc1. specialize (Hrel ltac:(lia)). lia. }
      destruct (IH _ _ _ _ _ Hrel3 E3)
        as (Hc3 & Hp3 & evs3 & failures & Hh3 & Ha3 & Hle3 & Hpos3 & Hs3 & Hr3).
      split; [congruence|]. split; [congruence|].
      exists (evs1 ++ evs2 ++ evs3), (e :: failures).
      assert (Ha : attempts (evs1 ++ evs2 ++ evs3) = (bp, Some e) :: attempts evs3).
      { now rewrite !attempts_app, Ha1, Ha2. }
      rewrite Ha. cbn [length]. repeat split.
      * rewrite Hh3, Hh2, Hh1. now rewrite <- !app_assoc.
      * now rewrite Ha3.
      * lia.
      * lia.
      * rewrite !sleeps_app, Hs1, Hs2, Hs3, Hc2, Hc1. cbn [app].
        destruct (Nat.ltb_spec 0 left) as [Hl|Hl].
        -- specialize (Hpos3 Hl).
           destruct (length (attempts evs3)) as [|k]; [lia|].
           cbn. now rewrite Nat.sub_0_r.
        -- assert (length (attempts evs3) = 0)%nat as -> by lia. reflexivity.
      * destruct r as [err|]; [|exact I]. destruct Hr3 as [Hlen ->].
        split; [cbn; now rewrite Hlen|].
        rewrite Hc2, Hc1. f_equal. cbn [map]. symmetry. apply last_cons_default.
    + run. intros [= <- <-]. split; [exact Hc1|]. split; [exact Hp1|].
      exists evs1, []. rewrite Ha1, Hs1. cbn. repeat split; (lia || exact Hh1).
Qed.





(** X8. With [RetryAttempts] below 1 the publisher is never called:
    [createBlueprintWithRetry] returns at once an error that wraps no
    cause, and every binding that reaches it fails, the state untouched. *)
Theorem no_attempt_configured (bp : PangolinBlueprint) (d : DockOtter) :
  RetryAttempts (config d) < 1 ->
  createBlueprintWithRetry bp d
  = (Some (AllAttemptsFailed (RetryAttempts (config d)) None), d)
  /\ forall (app : DokployApp) (domain : DokployDomain),
       Domain_Host domain <> "" ->
       negb (ForceSync (config d))
       && isProcessed d (generateResourceName (App_Name app) (Domain_Host domain)) = false ->
       processAppDomain app domain d
       = (Some (FailedToCreateBlueprint
                  (AllAttemptsFailed (RetryAttempts (config d)) None)), d).
Proof.
  intros HN.
  assert (E : forall bp0, createBlueprintWithRetry bp0 d
                          = (Some (AllAttemptsFailed (RetryAttempts (config d)) None), d)).
  { intros bp0. unfold createBlueprintWithRetry. unfold bind, getConfig. cbn beta iota.
    replace (Z.to_nat (RetryAttempts (config d))) with 0%nat by lia. reflexivity. }
  split; [apply E|]. intros app domain Hh Hg.
  destruct (processAppDomain_cases app domain d)
    as [[Hg' _] | [(_ & He & _) | (_ & _ & r & d1 & E' & ->)]].
  - congruence.
  - contradiction.
  - rewrite E in E'. now injection E' as <- <-.
Qed.

(** X9. What [processAppDomain] returns and what it marks: after [nil] the
    derived name is marked; after an error the ledger is as before, and the
    error is the empty-host error or the wrapped failure of all attempts. *)
Theorem marks_exactly_on_success :
  forall (app : DokployApp) (domain : DokployDomain) (d : DockOtter),
    match processAppDomain app domain d with
    | (None, d') =>
        isProcessed d' (generateResourceName (App_Name app) (Domain_Host domain)) = true
    | (Some e, d') =>
        processedApps d' = processedApps d
        /\ (e = DomainHostEmpty
            \/ exists cause,
                 e = FailedToCreateBlueprint
                       (AllAttemptsFailed (RetryAttempts (config d)) cause))
    end.
Proof.
  intros app domain d.
  destruct (processAppDomain_cases app domain d)
    as [[Hg ->] | [(_ & _ & ->) | (_ & _ & r & d1 & E & ->)]].
  - now apply andb_prop in Hg as [_ Hg].
  - split; [reflexivity | now left].
  - unfold createBlueprintWithRetry in E. unfold bind, getConfig in E. cbn beta iota in E.
    apply retryFrom_trace in E; [|lia].
    destruct E as (_ & Hp & evs & failures & _ & _ & _ & _ & _ & Hr).
    destruct r as [e|].
    + split; [exact Hp|]. right. destruct Hr as [_ ->]. now eexists.
    + rewrite isProcessed_markProcessed. now destruct (decide _).
Qed.

(** ** The connectivity test *)

(** X10. [testConnectivity] fails exactly when the inventory reader fails,
    with the reader's error; otherwise it sends one GET for
    [PangolinURL + "/v1/docs"] and returns [nil] whatever the answer.  It
    never calls the publisher and never touches the ledger. *)
Theorem testConnectivity_only_reads :
  forall d : DockOtter,
    testConnectivity d
    = match getDokployProjects d with
      | (inl err, d1) => (Some err, d1)
      | (inr _, d1) =>
          (None, record (Sent (GET pangolinClient (PangolinURL (config d) +:+ "/v1/docs"))) d1)
      end
    /\ processedApps (snd (testConnectivity d)) = processedApps d
    /\ exists evs, history (snd (testConnectivity d)) = history d ++ evs
                   /\ attempts evs = []
                   /\ Forall (fun r => exists c url, r = GET c url) (requests evs).
Proof.
  intros d. unfold testConnectivity, bind.
  destruct (getDokployProjects d) as [r d1] eqn:E.
  pose proof (tryEndpoints_run _ _ _ _ _ E) as (Hc & Hp & Hr).
  assert (Hgets : forall eps, Forall (fun r => exists c url, r = GET c url)
                                (requests (tried (config d) eps))).
  { induction eps as [|ep eps IH]; [constructor|]. cbn. constructor; [|exact IH].
    now eexists _, _. }
  destruct r as [err|projects].
  - split; [reflexivity|]. split; [exact Hp|].
    destruct Hr as (Hh & _). exists (tried (config d) endpoints).
    split; [exact Hh|]. split; [apply attempts_tried | apply Hgets].
  - unfold getConfig, send, ret. cbn [fst snd]. rewrite Hc.
    split; [reflexivity|]. split; [exact Hp|].
    destruct Hr as (failed & endpoint & rest & _ & Hh & _).
    eexists (tried (config d) (failed ++ [endpoint]) ++ [_]).
    cbn [record history]. rewrite Hh, <- app_assoc. split; [reflexivity|].
    rewrite attempts_app, requests_app, attempts_tried. split; [reflexivity|].
    apply Forall_app. split; [apply Hgets|]. constructor; [|constructor].
    now eexists _, _.
Qed.

(** ** Resource names of ASCII inputs *)

Lemma isASCII_append (a b : string) :
  strings.isASCII (a +:+ b) = strings.isASCII a && strings.isASCII b.
Proof.
  induction a as [|c a IH]; [reflexivity|].
  change (String c a +:+ b) with (String c (a +:+ b)). cbn [strings.isASCII].
  now rewrite IH, andb_assoc.
Qed.

Lemma mapBytes_append (f : ascii -> ascii) (a b : string) :
  strings.mapBytes f (a +:+ b) = strings.mapBytes f a +:+ strings.mapBytes f b.
Proof.
  induction a as [|c a IH]; [reflexivity|].
  change (String c a +:+ b) with (String c (a +:+ b)). cbn [strings.mapBytes].
  rewrite IH. reflexivity.
Qed.

Lemma length_mapBytes (f : ascii -> ascii) (s : string) :
  String.length (strings.mapBytes f s) = String.length s.
Proof.
  induction s as [|c s IH]; cbn [strings.mapBytes String.length]; [reflexivity|].
  now rewrite IH.
Qed.

Lemma length_append_bytes (a b : string) :
  String.length (a +:+ b) = (String.length a + String.length b)%nat.
Proof.
  induction a as [|c a IH]; [reflexivity|].
  change (String c a +:+ b) with (String c (a +:+ b)). cbn [String.length].
  now rewrite IH.
Qed.

Lemma firstBytes_short (n : nat) (s : string) :
  (String.length s <= n)%nat -> firstBytes n s = s.
Proof.
  revert s; induction n as [|n IH]; intros [|c s]; cbn; intros H; try reflexivity; [lia|].
  rewrite IH by lia. reflexivity.
Qed.

Lemma firstBytes_append_long (n : nat) (a b : string) :
  (n <= String.length a)%nat -> firstBytes n (a +:+ b) = firstBytes n a.
Proof.
  revert a; induction n as [|n IH]; intros [|c a]; cbn [String.length]; intros H;
    try reflexivity; [lia|].
  change (String c a +:+ b) with (String c (a +:+ b)). cbn [firstBytes].
  rewrite IH by lia. reflexivity.
Qed.

Lemma allBytes_firstBytes (p : ascii -> bool) (n : nat) (s : string) :
  allBytes p s = true -> allBytes p (firstBytes n s) = true.
Proof.
  revert s; induction n as [|n IH]; intros [|c s]; cbn; try reflexivity.
  intros [-> H]%andb_prop. cbn. now apply IH.
Qed.

Lemma folded_labelByte (c : ascii) :
  strings.isASCIIByte c = true -> labelByte (folded c) = true.
Proof.
  destruct c as [[] [] [] [] [] [] [] []]; vm_compute; intros H;
    first [reflexivity | discriminate H].
Qed.

Lemma allBytes_folded (s : string) :
  strings.isASCII s = true -> allBytes labelByte (strings.mapBytes folded s) = true.
Proof.
  induction s as [|c s IH]; cbn; [reflexivity|].
  intros [Hc Hs]%andb_prop. now rewrite folded_labelByte, IH.
Qed.

(** The name of ASCII inputs: the first 63 bytes of the folded string. *)
Lemma generateResourceName_ascii (appName host : string) :
  strings.isASCII appName = true -> strings.isASCII host = true ->
  generateResourceName appName host
  = firstBytes 63 (strings.mapBytes folded (appName +:+ "-" +:+ host)).
Proof.
  intros Ha Hh. rewrite generateResourceName_derivedName. unfold derivedName, strings.ToLower.
  rewrite !isASCII_append, Ha, Hh. cbn [strings.isASCII strings.isASCIIByte andb].
  replace (strings.isASCIIByte "-") with true by reflexivity. cbn [andb].
  rewrite mapBytes_compose. fold folded.
  change (fun c => dashed (strings.lowerByte c)) with folded.
  destruct (Nat.ltb_spec 63
              (String.length (strings.mapBytes folded (appName +:+ "-" +:+ host))));
    [reflexivity | now rewrite firstBytes_short].
Qed.

(** X11. For an ASCII application name and host the resource name is
    ASCII and holds no dot, no underscore and no capital letter, and its
    length is the length of name, dash and host together, capped at 63. *)
Theorem resource_name_shape (appName host : string) :
  strings.isASCII appName = true ->
  strings.isASCII host = true ->
  allBytes labelByte (generateResourceName appName host) = true
  /\ String.length (generateResourceName appName host)
     = Nat.min 63 (String.length appName + 1 + String.length host).
Proof.
  intros Ha Hh. rewrite generateResourceName_ascii by assumption. split.
  - apply allBytes_firstBytes, allBytes_folded.
    rewrite !isASCII_append, Ha, Hh. reflexivity.
  - rewrite length_firstBytes, length_mapBytes, !length_append_bytes.
    change (String.length "-") with 1%nat. lia.
Qed.

(** X12. Two ASCII bindings whose application names and whose hosts differ
    only in the case of letters or in which of [.], [_] and [-] they use
    derive the same resource name, and so share one ledger entry. *)
Theorem names_collide_up_to_folding (appName appName' host host' : string) :
  strings.isASCII appName = true -> strings.isASCII appName' = true ->
  strings.isASCII host = true -> strings.isASCII host' = true ->
  strings.mapBytes folded appName = strings.mapBytes folded appName' ->
  strings.mapBytes folded host = strings.mapBytes folded host' ->
  generateResourceName appName host = generateResourceName appName' host'.
Proof.
  intros Ha Ha' Hh Hh' Ea Eh.
  rewrite !generateResourceName_ascii by assumption.
  now rewrite !mapBytes_append, Ea, Eh.
Qed.

(** X13. An ASCII application name of 63 bytes or more leaves no room for
    the host: all its bindings with ASCII hosts derive the same resource
    name, the folded first 63 bytes of the application name. *)
Theorem long_name_hides_host (appName host host' : string) :
  strings.isASCII appName = true ->
  strings.isASCII host = true -> strings.isASCII host' = true ->
  (63 <= String.length appName)%nat ->
  generateResourceName appName host = firstBytes 63 (strings.mapBytes folded appName)
  /\ generateResourceName appName host = generateResourceName appName host'.
Proof.
  intros Ha Hh Hh' Hlen.
  assert (E : forall h, strings.isASCII h = true ->
                        generateResourceName appName h
                        = firstBytes 63 (strings.mapBytes folded appName)).
  { intros h Hascii. rewrite generateResourceName_ascii by assumption.
    rewrite mapBytes_append. apply firstBytes_append_long.
    now rewrite length_mapBytes. }
  split; [now apply E | now rewrite !E].
Qed.

(** ** Configuration and credentials *)

Lemma validateConfig_spec (cfg : Config) :
  validateConfig cfg = None
  <-> DokployURL cfg <> "" /\ PangolinURL cfg <> ""
      /\ (PangolinToken cfg <> "" \/ PangolinAPIKey cfg <> "")
      /\ (RunOnce cfg = true \/ 5 * 1000000000 <= PollInterval cfg)
      /\ 1 <= RetryAttempts cfg <= 10.
Proof.
  unfold validateConfig. split.
  - destruct (String.eqb_spec (DokployURL cfg) "") as [|Hd]; [discriminate|].
    destruct (String.eqb_spec (PangolinURL cfg) "") as [|Hp]; [discriminate|].
    destruct (negb (negb (String.eqb (PangolinToken cfg) "")
                    || negb (String.eqb (PangolinAPIKey cfg) ""))) eqn:Ha; [discriminate|].
    destruct (negb (RunOnce cfg) && (PollInterval cfg <? 5 * 1000000000)) eqn:Hr;
      [discriminate|].
    destruct ((RetryAttempts cfg <? 1) || (RetryAttempts cfg >? 10)) eqn:Hn; [discriminate|].
    intros _. split; [exact Hd|]. split; [exact Hp|]. split; [|split].
    + apply negb_false_iff, orb_true_iff in Ha.
      destruct Ha as [Ha|Ha]; [left|right]; now apply negb_true_iff, String.eqb_neq in Ha.
    + apply andb_false_iff in Hr as [Hr|Hr].
      * left. now apply negb_false_iff in Hr.
      * right. apply Z.ltb_ge in Hr. exact Hr.
    + apply orb_false_iff in Hn as [H1 H2]. apply Z.ltb_ge in H1.
      rewrite Z.gtb_ltb in H2. apply Z.ltb_ge in H2. lia.
  - intros (Hd & Hp & Ha & Hr & Hn).
    apply String.eqb_neq in Hd, Hp. rewrite Hd, Hp.
    assert (Ea : negb (negb (String.eqb (PangolinToken cfg) "")
                       || negb (String.eqb (PangolinAPIKey cfg) "")) = false).
    { apply negb_false_iff, orb_true_iff.
      destruct Ha as [Ha|Ha]; [left|right]; now apply negb_true_iff, String.eqb_neq. }
    assert (Er : negb (RunOnce cfg) && (PollInterval cfg <? 5 * 1000000000) = false).
    { apply andb_false_iff. destruct Hr as [Hr|Hr].
      - left. now rewrite Hr.
      - right. now apply Z.ltb_ge. }
    assert (En : (RetryAttempts cfg <? 1) || (RetryAttempts cfg >? 10) = false).
    { apply orb_false_iff. split; [apply Z.ltb_ge; lia|].
      rewrite Z.gtb_ltb. apply Z.ltb_ge. lia. }
    now rewrite Ea, Er, En.
Qed.

(** X14. [validateConfig] lets a configuration through exactly when both
    URLs are set, a Pangolin token or API key is set, the poll interval is
    at least five seconds unless the run is a single pass, and the retry
    attempts are 1 to 10; the three Dokploy credentials play no part. *)
Theorem validateConfig_accepts_exactly :
  forall cfg : Config,
    (validateConfig cfg = None
     <-> DokployURL cfg <> "" /\ PangolinURL cfg <> ""
         /\ (PangolinToken cfg <> "" \/ PangolinAPIKey cfg <> "")
         /\ (RunOnce cfg = true \/ 5 * 1000000000 <= PollInterval cfg)
         /\ 1 <= RetryAttempts cfg <= 10)
    /\ forall key token session : string,
         validateConfig cfg
         = validateConfig
             {| DokployURL := DokployURL cfg; DokployAPIKey := key;
                DokployToken := token; DokploySession := session;
                PangolinURL := PangolinURL cfg; PangolinAPIKey := PangolinAPIKey cfg;
                PangolinToken := PangolinToken cfg; PollInterval := PollInterval cfg;
                RetryAttempts := RetryAttempts cfg; RetryDelay := RetryDelay cfg;
                RunOnce := RunOnce cfg; ForceSync := ForceSync cfg |}.
Proof.
  intros cfg. split.
  - apply validateConfig_spec.
  - intros key token session. reflexivity.
Qed.

Lemma getEnv_nonempty (Getenv : string -> string) (key defaultValue : string) :
  defaultValue <> "" -> getEnv Getenv key defaultValue <> "".
Proof.
  intros Hd. unfold getEnv.
  now destruct (String.eqb_spec (Getenv key) "").
Qed.

Lemma getEnv_empty_default (Getenv : string -> string) (key : string) :
  getEnv Getenv key "" = Getenv key.
Proof.
  unfold getEnv. now destruct (String.eqb_spec (Getenv key) "").
Qed.

(** X15. Whether a configuration loaded from the environment is let
    through depends on three things only.  A Pangolin token or API key must
    be set.  [RETRY_ATTEMPTS], when it is set and parses, must be 1 to 10;
    empty or unparsable it counts as 3.  [POLL_INTERVAL], when it is set
    and parses, must be at least five seconds unless [RUN_ONCE] parses to
    true; empty or unparsable it counts as thirty seconds.  The two URLs
    can never be missing, since an empty variable takes the default. *)
Theorem loaded_config_accepted_exactly :
  forall (Getenv : string -> string) (Atoi : string -> option Z)
         (ParseDuration : string -> option Z) (ParseBool : string -> option bool),
    let cfg := loadConfig Getenv Atoi ParseDuration ParseBool in
    (DokployURL cfg <> "" /\ PangolinURL cfg <> "")
    /\ (validateConfig cfg = None
        <-> (Getenv "PANGOLIN_TOKEN" <> "" \/ Getenv "PANGOLIN_API_KEY" <> "")
            /\ (parsed Getenv ParseBool "RUN_ONCE" = Some true
                \/ match parsed Getenv ParseDuration "POLL_INTERVAL" with
                   | Some t => 5 * 1000000000 <= t
                   | None => True
                   end)
            /\ match parsed Getenv Atoi "RETRY_ATTEMPTS" with
               | Some n => 1 <= n <= 10
               | None => True
               end).
Proof.
  intros Getenv Atoi ParseDuration ParseBool cfg.
  assert (Hurls : DokployURL cfg <> "" /\ PangolinURL cfg <> "").
  { split; apply getEnv_nonempty; discriminate. }
  split; [exact Hurls|].
  rewrite validateConfig_spec. subst cfg.
  cbn [loadConfig DokployURL PangolinURL PangolinToken PangolinAPIKey RunOnce
       PollInterval RetryAttempts].
  rewrite !getEnv_empty_default.
  unfold parsed, getBoolEnv, getDurationEnv, getIntEnv.
  destruct (String.eqb (Getenv "RUN_ONCE") ""); cbn [negb];
    [|destruct (ParseBool (Getenv "RUN_ONCE")) as [[]|]];
    (destruct (String.eqb (Getenv "POLL_INTERVAL") ""); cbn [negb];
     [|destruct (ParseDuration (Getenv "POLL_INTERVAL"))]);
    (destruct (String.eqb (Getenv "RETRY_ATTEMPTS") ""); cbn [negb];
     [|destruct (Atoi (Getenv "RETRY_ATTEMPTS"))]);
    (split;
     [ intros (_ & _ & Hauth & Hpoll & Hretry); split; [exact Hauth|]; split;
       [ destruct Hpoll as [Hpoll|Hpoll];
         [ first [now left | discriminate Hpoll] | right; first [exact Hpoll | exact I] ]
       | first [exact Hretry | exact I] ]
     | intros (Hauth & Hpoll & Hretry); split; [apply Hurls|]; split; [apply Hurls|];
       split; [exact Hauth|]; split;
       [ destruct Hpoll as [Hpoll|Hpoll];
         [ first [now left | discriminate Hpoll] | right; first [exact Hpoll | lia] ]
       | first [exact Hretry | lia] ] ]).
Qed.

Lemma dokployHeaders_lookup (cfg : Config) :
  dokployHeaders cfg !! "X-API-Key"
  = (if negb (String.eqb (DokployAPIKey cfg) "") then Some (DokployAPIKey cfg) else None)
  /\ dokployHeaders cfg !! "Authorization"
     = (if negb (String.eqb (DokployToken cfg) "")
        then Some ("Bearer " +:+ DokployToken cfg) else None)
  /\ dokployHeaders cfg !! "Cookie"
     = (if negb (String.eqb (DokploySession cfg) "")
        then Some ("session=" +:+ DokploySession cfg) else None).
Proof.
  unfold dokployHeaders.
  destruct (String.eqb (DokployAPIKey cfg) "");
    destruct (String.eqb (DokployToken cfg) "");
    destruct (String.eqb (DokploySession cfg) ""); cbn [negb];
    repeat split; reflexivity.
Qed.

(** X16. The credentials a client sends and the authentication type that
    is logged agree: the Pangolin client carries an [Authorization] header
    exactly when [getPangolinAuthType] is not "none", made of the token if
    there is one and of the API key otherwise; a validated configuration
    always has it.  The Dokploy client carries none of its three credential
    headers exactly when [getDokployAuthType] is "none". *)
Theorem credentials_match_auth_type :
  forall d : DockOtter,
    (pangolinHeaders (config d) !! "Authorization"
     = if negb (String.eqb (PangolinToken (config d)) "")
       then Some ("Bearer " +:+ PangolinToken (config d))
       else if negb (String.eqb (PangolinAPIKey (config d)) "")
       then Some ("Bearer " +:+ PangolinAPIKey (config d))
       else None)
    /\ (getPangolinAuthType d = "none"
        <-> pangolinHeaders (config d) !! "Authorization" = None)
    /\ (validateConfig (config d) = None
        -> is_Some (pangolinHeaders (config d) !! "Authorization"))
    /\ (getDokployAuthType d = "none"
        <-> dokployHeaders (config d) !! "X-API-Key" = None
            /\ dokployHeaders (config d) !! "Authorization" = None
            /\ dokployHeaders (config d) !! "Cookie" = None).
Proof.
  intros d.
  assert (Hp : pangolinHeaders (config d) !! "Authorization"
               = if negb (String.eqb (PangolinToken (config d)) "")
                 then Some ("Bearer " +:+ PangolinToken (config d))
                 else if negb (String.eqb (PangolinAPIKey (config d)) "")
                 then Some ("Bearer " +:+ PangolinAPIKey (config d))
                 else None).
  { unfold pangolinHeaders.
    destruct (String.eqb (PangolinToken (config d)) ""); cbn [negb];
      [destruct (String.eqb (PangolinAPIKey (config d)) ""); cbn [negb]|];
      rewrite ?lookup_insert_eq; reflexivity. }
  split; [exact Hp|]. split; [|split].
  - rewrite Hp. unfold getPangolinAuthType.
    destruct (String.eqb (PangolinToken (config d)) ""); cbn [negb];
      [destruct (String.eqb (PangolinAPIKey (config d)) ""); cbn [negb]|];
      split; intros H; first [reflexivity | discriminate H].
  - intros Hv. apply validateConfig_spec in Hv as (_ & _ & Hauth & _). rewrite Hp.
    destruct (String.eqb_spec (PangolinToken (config d)) "") as [Ht|Ht]; cbn [negb];
      [|now eexists].
    destruct (String.eqb_spec (PangolinAPIKey (config d)) "") as [Hk|Hk]; cbn [negb];
      [|now eexists].
    now destruct Hauth.
  - destruct (dokployHeaders_lookup (config d)) as (-> & -> & ->).
    unfold getDokployAuthType.
    destruct (String.eqb (DokployAPIKey (config d)) "");
      destruct (String.eqb (DokployToken (config d)) "");
      destruct (String.eqb (DokploySession (config d)) ""); cbn [negb];
      (split; [intros H | intros (H1 & H2 & H3)]);
      first [ reflexivity | discriminate H | discriminate H1
            | discriminate H2 | discriminate H3 | now repeat split ].
Qed.

(** ** The daemon and the process *)

Lemma runLoop_ticks (k : nat) :
  forall (rest : list Signal) (d : DockOtter),
    runLoop (repeat Ticked k ++ Cancelled :: rest) d = (Returned None, passes k d)
    /\ runLoop (repeat Ticked k) d = (Waiting, passes k d).
Proof.
  unfold passes. induction k as [|k IH]; intros rest d; [now split|].
  cbn [repeat app runLoop]. unfold bind.
  destruct (syncApps d) as [err d1] eqn:E.
  rewrite Nat.iter_succ_r, E. cbn [snd]. apply IH.
Qed.

Lemma runLoop_outcome (signals : list Signal) :
  forall d : DockOtter,
    fst (runLoop signals d)
    = if existsb (fun s => match s with Cancelled => true | Ticked => false end) signals
      then Returned None else Waiting.
Proof.
  induction signals as [|[|] rest IH]; intros d; [reflexivity | reflexivity|].
  cbn [runLoop existsb orb]. unfold bind. destruct (syncApps d) as [err d1]. apply IH.
Qed.

Lemma testConnectivity_config (d : DockOtter) :
  config (snd (testConnectivity d)) = config d.
Proof. apply config_later, rtc_once, step_testConnectivity. Qed.

(** X17. With a positive poll interval [Run] is the connectivity test, the
    initial pass and one pass for each tick, whatever any of them returns.
    It returns, and then [nil], only when the cancellation is received;
    what comes after the cancellation is not looked at, and until then it
    waits. *)
Theorem Run_is_test_then_passes (d : DockOtter) (k : nat) (rest : list Signal) :
  0 < PollInterval (config d) ->
  Run (repeat Ticked k ++ Cancelled :: rest) d
  = (Returned None, passes (S k) (snd (testConnectivity d)))
  /\ Run (repeat Ticked k) d = (Waiting, passes (S k) (snd (testConnectivity d))).
Proof.
  intros Hpos. unfold Run, bind, getConfig.
  pose proof (testConnectivity_config d) as Hc.
  destruct (testConnectivity d) as [err d1]. cbn [snd] in *.
  destruct (Z.leb_spec (PollInterval (config d1)) 0) as [Hle|_]; [rewrite Hc in Hle; lia|].
  destruct (syncApps d1) as [err1 d2] eqn:E.
  unfold passes. rewrite Nat.iter_succ_r, E. cbn [snd].
  apply runLoop_ticks.
Qed.

(** X18. How the process ends.  A recognised flag ends it with the flag's
    code before anything else.  Otherwise a configuration that is not let
    through ends it with code 1 before any state exists.  In single-pass
    mode the code is 1 exactly when the inventory cannot be fetched:
    failing bindings leave it at 0.  In daemon mode a validated
    configuration never panics and never ends with code 1: the process ends
    with code 0 once the cancellation is received and runs until then. *)
Theorem main_exit_code :
  forall (args : list string) (health : HttpResult) (cfg : Config) (signals : list Signal),
    (forall code, flagExit args health = Some code ->
                  main args health cfg signals = (code, None))
    /\ (forall e, flagExit args health = None -> validateConfig cfg = Some e ->
                  main args health cfg signals = (Exit 1, None))
    /\ (flagExit args health = None -> validateConfig cfg = None -> RunOnce cfg = true ->
        fst (main args health cfg signals)
        = match fst (getDokployProjects (NewDockOtter cfg)) with
          | inl _ => Exit 1
          | inr _ => Exit 0
          end)
    /\ (flagExit args health = None -> validateConfig cfg = None -> RunOnce cfg = false ->
        fst (main args health cfg signals)
        = if existsb (fun s => match s with Cancelled => true | Ticked => false end) signals
          then Exit 0 else Running).
Proof.
  intros args health cfg signals. unfold main. split; [|split; [|split]].
  - intros code ->. reflexivity.
  - intros e -> ->. reflexivity.
  - intros -> -> ->. unfold syncApps, bind.
    destruct (getDokployProjects (NewDockOtter cfg)) as [[err|projects] d1]; [reflexivity|].
    destruct (rangeProjects projects (mkCounters 0 0 0) d1) as [c d2]. reflexivity.
  - intros -> Hv Hr. rewrite Hv, Hr.
    apply validateConfig_spec in Hv as (_ & _ & _ & [Hr'|Hpoll] & _); [congruence|].
    unfold Run, bind, getConfig.
    pose proof (testConnectivity_config (NewDockOtter cfg)) as Hc.
    destruct (testConnectivity (NewDockOtter cfg)) as [err d1]. cbn [snd] in Hc.
    destruct (Z.leb_spec (PollInterval (config d1)) 0) as [Hle|_].
    { rewrite Hc in Hle. cbn in Hle. lia. }
    destruct (syncApps d1) as [err1 d2].
    pose proof (runLoop_outcome signals d2) as Ho.
    destruct (runLoop signals d2) as [o d3]. cbn [fst] in *. rewrite Ho.
    now destruct (existsb _ signals).
Qed.

(** ** Where requests go *)

Lemma onlyAllowed_send (cfg : Config) (r : Request) (d : DockOtter) :
  allowedRequest cfg r -> onlyAllowed cfg d -> onlyAllowed cfg (record (Sent r) d).
Proof.
  intros Hr [Hc Hall]. split; [exact Hc|]. cbn [record history].
  rewrite requests_app. apply Forall_app. split; [exact Hall|].
  change (requests [Sent r]) with [r]. constructor; [exact Hr | constructor].
Qed.

Lemma onlyAllowed_record (cfg : Config) (e : Event) (d : DockOtter) :
  requests [e] = [] -> onlyAllowed cfg d -> onlyAllowed cfg (record e d).
Proof.
  intros He [Hc Hall]. split; [exact Hc|]. cbn [record history].
  rewrite requests_app, He, app_nil_r. exact Hall.
Qed.

Lemma onlyAllowed_createBlueprint (cfg : Config) (bp : PangolinBlueprint) :
  preserves (onlyAllowed cfg) (createBlueprint bp).
Proof.
  intros d Hd. unfold createBlueprint. run.
  destruct (yaml_Marshal bp) as [err|yamlData]; cbn [snd].
  - now apply onlyAllowed_record.
  - assert (Hpost : onlyAllowed cfg
                      (record (Sent (POST pangolinClient
                                       (PangolinURL (config d) +:+ "/v1/blueprints")
                                       yamlData)) d)).
    { apply onlyAllowed_send; [|exact Hd]. right; right. destruct Hd as [-> _].
      now exists yamlData. }
    destruct (remote (history d) _) as [err|status body]; cbn [snd].
    + now apply (onlyAllowed_record cfg (CreateBlueprintReturned bp _)).
    + destruct ((status <? 200) || (status >=? 300)); cbn [snd];
        now apply (onlyAllowed_record cfg (CreateBlueprintReturned bp _)).
Qed.

Lemma onlyAllowed_retryFrom (cfg : Config) (bp : PangolinBlueprint) (left : nat) :
  forall (attempt : Z) (lastErr : option error),
    preserves (onlyAllowed cfg) (retryFrom left attempt lastErr bp).
Proof.
  induction left as [|left IH]; intros attempt lastErr; cbn [retryFrom].
  - apply preserves_bind; [apply preserves_getConfig | intros c; apply preserves_ret].
  - apply preserves_bind; [apply onlyAllowed_createBlueprint | intros [e|]];
      [|apply preserves_ret].
    apply preserves_bind; [apply preserves_getConfig | intros c].
    apply preserves_bind; [|intros _; apply IH].
    destruct (attempt <? RetryAttempts c); [|apply preserves_ret].
    intros d Hd. now apply (onlyAllowed_record cfg (Slept _)).
Qed.

Lemma onlyAllowed_processAppDomain (cfg : Config) (app : DokployApp) (domain : DokployDomain) :
  preserves (onlyAllowed cfg) (processAppDomain app domain).
Proof.
  intros d Hd.
  destruct (processAppDomain_cases app domain d)
    as [[_ ->] | [(_ & _ & ->) | (_ & _ & r & d1 & E & ->)]]; try exact Hd.
  assert (H1 : onlyAllowed cfg d1).
  { replace d1 with (snd (createBlueprintWithRetry
                            (blueprintFor
                               (generateResourceName (App_Name app) (Domain_Host domain))
                               app domain (resolveTargetPort app domain)) d))
      by now rewrite E.
    unfold createBlueprintWithRetry.
    apply preserves_bind; [apply preserves_getConfig | intros c | exact Hd].
    apply onlyAllowed_retryFrom. }
  destruct r; [exact H1|]. exact H1.
Qed.

Lemma onlyAllowed_tryEndpoints (cfg : Config) (d : DockOtter) :
  onlyAllowed cfg d -> onlyAllowed cfg (snd (getDokployProjects d)).
Proof.
  intros [Hc Hall]. destruct (getDokployProjects d) as [r d'] eqn:E.
  apply tryEndpoints_run in E as (Hc' & _ & Hr). cbn [snd].
  assert (Hgets : forall eps, (forall e, In e eps -> In e endpoints) ->
                              Forall (allowedRequest cfg) (requests (tried (config d) eps))).
  { induction eps as [|ep eps IH]; intros Hin; [constructor|].
    cbn. constructor.
    - left. exists ep. split; [apply Hin; now left | now rewrite Hc].
    - apply IH. intros e He. apply Hin. now right. }
  split; [congruence|]. destruct r as [err|projects].
  - destruct Hr as (-> & _). rewrite requests_app. apply Forall_app.
    split; [exact Hall | now apply Hgets].
  - destruct Hr as (failed & endpoint & rest & Heq & -> & _).
    rewrite requests_app. apply Forall_app. split; [exact Hall|].
    apply Hgets. intros e He. rewrite Heq.
    apply in_app_or in He as [He|[<-|[]]]; apply in_or_app; [now left | right; now left].
Qed.

Lemma onlyAllowed_step (cfg : Config) (d d' : DockOtter) :
  step d d' -> onlyAllowed cfg d -> onlyAllowed cfg d'.
Proof.
  intros [x|x|app domain x] H1.
  - unfold testConnectivity, bind.
    pose proof (onlyAllowed_tryEndpoints cfg x H1) as H2.
    destruct (getDokployProjects x) as [[err|projects] x1]; cbn [snd] in *; [exact H2|].
    unfold getConfig, send, ret. cbn [snd].
    apply onlyAllowed_send; [|exact H2]. right; left. now destruct H2 as [-> _].
  - unfold syncApps, bind.
    pose proof (onlyAllowed_tryEndpoints cfg x H1) as H2.
    destruct (getDokployProjects x) as [[err|projects] x1]; cbn [snd] in *; [exact H2|].
    pose proof (rangeProjects_preserves (onlyAllowed cfg)
                  (onlyAllowed_processAppDomain cfg) projects (mkCounters 0 0 0) x1 H2) as H3.
    destruct (rangeProjects projects (mkCounters 0 0 0) x1) as [c x2]. cbn [snd] in *.
    unfold emit, ret. cbn [snd]. now apply onlyAllowed_record.
  - now apply onlyAllowed_processAppDomain.
Qed.

(** X19. Every call the engine makes on its two resty clients, in any state
    reached from [NewDockOtter] by [testConnectivity], [syncApps] and
    [processAppDomain], is a [Get] on the Dokploy client of [DokployURL]
    followed by one of the four candidate paths, the [Get] on the Pangolin
    client of [PangolinURL] followed by "/v1/docs", or a [Post] on the
    Pangolin client of [PangolinURL] followed by "/v1/blueprints": the
    engine calls no [Post] on the Dokploy client and names no other URL.
    This is about the URLs the program passes to the clients, not about
    what resty sends for a call. *)
Theorem requests_stay_within_bounds (cfg : Config) (d : DockOtter) :
  rtc step (NewDockOtter cfg) d ->
  Forall (allowedRequest cfg) (requests (history d)).
Proof.
  intros Hlater.
  assert (H : onlyAllowed cfg (NewDockOtter cfg) -> onlyAllowed cfg d).
  { induction Hlater as [|d1 d2 d3 Hstep _ IH]; [trivial|].
    intros H1. apply IH. now apply (onlyAllowed_step cfg d1). }
  apply H. split; [reflexivity | constructor].
Qed.

End Engine.

(** ** Concrete runs *)

Import Scenario.

Example scenario_config_valid : validateConfig cfg = None.
Proof. reflexivity. Qed.

(** The first candidate answers 404 and the second a decodable 200: the
    reader returns the inventory of the second and the third, which would
    have answered too, is never requested. *)
Example fallback_stops_at_second :
  getDokployProjects decode up (NewDockOtter cfg) = (inr inventory, fetched).
Proof. reflexivity. Qed.

(** A name of 73 bytes is cut after its 63rd byte. *)
Example long_name_is_cut :
  generateResourceName lower
    "Customer_Portal.Backend_Service.Production.Region_EU.West" "app.example.com"
  = "customer-portal-backend-service-production-region-eu-west-app-e".
Proof. reflexivity. Qed.

Example afterShop_reached :
  processAppDomain lower yaml up shop (domain "example.com.") (NewDockOtter cfg)
  = (None, afterShop).
Proof. vm_compute. reflexivity. Qed.

Lemma afterShop_step : step lower decode yaml up (NewDockOtter cfg) afterShop.
Proof.
  replace afterShop
    with (snd (processAppDomain lower yaml up shop (domain "example.com.") (NewDockOtter cfg)))
    by (now rewrite afterShop_reached).
  apply step_processAppDomain.
Qed.

Example afterPass_reached : syncApps lower decode yaml up afterShop = (None, afterPass).
Proof. vm_compute. reflexivity. Qed.

Lemma afterPass_step : step lower decode yaml up afterShop afterPass.
Proof.
  replace afterPass with (snd (syncApps lower decode yaml up afterShop))
    by (now rewrite afterPass_reached).
  apply step_syncApps.
Qed.


Lemma getDokployProjects_first_success_witness :
  config fetched = config (NewDockOtter cfg)
  /\ processedApps fetched = processedApps (NewDockOtter cfg)
  /\ exists failed endpoint rest,
       endpoints = failed ++ endpoint :: rest
       /\ history fetched
          = history (NewDockOtter cfg) ++ tried cfg (failed ++ [endpoint])
       /\ allFail decode up cfg (history (NewDockOtter cfg)) failed
       /\ yields decode up cfg (history (NewDockOtter cfg) ++ tried cfg failed)
            endpoint inventory.
Proof.
  apply (getDokployProjects_first_success decode up (NewDockOtter cfg) fetched
           (inr inventory)).
  vm_compute. reflexivity.
Defined.

Lemma published_at_most_once_witness :
  NoDup (publishedNames (history afterPass))
  /\ (isProcessed afterShop (generateResourceName lower "shop" "example.com.") = true
      /\ processAppDomain lower yaml up shadow (domain "") afterPass = (None, afterPass))
  /\ (exists r d' evs r1 rest,
        processAppDomain lower yaml up web (domain "a.example.com") forced = (r, d')
        /\ history d' = history forced ++ evs
        /\ attempts evs
           = (blueprintFor "web-a-example-com" web (domain "a.example.com") 443, r1) :: rest).
Proof.
  destruct (published_at_most_once lower decode yaml up) as (Honce & Hrefuse & Hforce).
  split; [|split].
  - apply (Honce cfg afterPass); [reflexivity|].
    apply rtc_l with afterShop; [apply afterShop_step|].
    apply rtc_once, afterPass_step.
  - apply (Hrefuse shop shadow (domain "example.com.") (domain "")
             (NewDockOtter cfg) afterShop afterPass).
    + reflexivity.
    + vm_compute. reflexivity.
    + apply rtc_once, afterPass_step.
    + vm_compute. reflexivity.
  - apply (Hforce web (domain "a.example.com") forced).
    + reflexivity.
    + discriminate.
    + cbn. lia.
Defined.

(** C6 fails as stated: once the binding of [shop] for "example.com." is
    published, the hostless binding of an application named
    "shop-example.com" derives the same name "shop-example-com-", is
    returned with [nil] and counted as processed. *)
Lemma empty_host_accepted :
  rtc (step lower decode yaml up) (NewDockOtter cfg) afterShop
  /\ Domain_Host (domain "") = ""
  /\ processAppDomain lower yaml up shadow (domain "") afterShop = (None, afterShop)
  /\ rangeDomains lower yaml up shadow [domain ""] (mkCounters 0 0 0) afterShop
     = (mkCounters 1 0 0, afterShop).
Proof.
  split; [apply rtc_once, afterShop_step|].
  split; [reflexivity|].
  split; vm_compute; reflexivity.
Qed.

Lemma empty_host_rejected_witness :
  processAppDomain lower yaml up web (domain "") (NewDockOtter cfg)
  = (Some DomainHostEmpty, NewDockOtter cfg)
  /\ rangeDomains lower yaml up web [domain ""; domain "a.example.com"]
       (mkCounters 0 0 0) (NewDockOtter cfg)
     = rangeDomains lower yaml up web [domain "a.example.com"]
         (mkCounters 0 0 1) (NewDockOtter cfg)
  /\ rangeDomains lower yaml up web [domain ""] (mkCounters 0 0 0) (NewDockOtter cfg)
     = (mkCounters 0 0 1, NewDockOtter cfg).
Proof.
  destruct (empty_host_rejected lower yaml up web (domain "") [domain "a.example.com"]
              (mkCounters 0 0 0) (NewDockOtter cfg) eq_refl eq_refl) as (E & _ & Hrest & _).
  destruct (empty_host_rejected lower yaml up web (domain "") []
              (mkCounters 0 0 0) (NewDockOtter cfg) eq_refl eq_refl) as (_ & _ & _ & Hone).
  split; [exact E|]. split; [exact Hrest|].
  apply Hone. cbn [errors]. lia.
Defined.

Lemma fetch_failure_aborts_witness :
  syncApps lower decode yaml down (NewDockOtter cfg)
  = (Some (FailedToGetProjects
             (AllEndpointsFailed (Some (EndpointStatus "/api/applications" 500)))),
     unfetched)
  /\ processedApps unfetched = processedApps (NewDockOtter cfg)
  /\ config unfetched = config (NewDockOtter cfg)
  /\ history unfetched = history (NewDockOtter cfg) ++ tried cfg endpoints
  /\ attempts (tried cfg endpoints) = [].
Proof.
  apply (fetch_failure_aborts lower decode yaml down (NewDockOtter cfg) unfetched).
  vm_compute. reflexivity.
Defined.

Lemma ledger_hit_counts_processed_witness :
  processAppDomain lower yaml up shadow (domain "") afterShop = (None, afterShop)
  /\ rangeDomains lower yaml up shadow [domain ""; domain "late.example.com"]
       (mkCounters 0 0 0) afterShop
     = rangeDomains lower yaml up shadow [domain "late.example.com"]
         (mkCounters 1 0 0) afterShop
  /\ rangeDomains lower yaml up shadow [domain ""] (mkCounters 0 0 0) afterShop
     = (mkCounters 1 0 0, afterShop)
  /\ (0 <= 0 < 2 ^ 63 - 1 ->
      rangeDomains lower yaml up shadow [domain ""] (mkCounters 0 0 0) afterShop
      = (mkCounters 1 0 0, afterShop)).
Proof.
  assert (Hmarked : isProcessed afterShop
                      (generateResourceName lower (App_Name shadow) (Domain_Host (domain "")))
                    = true) by (vm_compute; reflexivity).
  destruct (ledger_hit_counts_processed lower yaml up shadow (domain "")
              [domain "late.example.com"] (mkCounters 0 0 0) afterShop eq_refl Hmarked)
    as (E & Hrest & _).
  destruct (ledger_hit_counts_processed lower yaml up shadow (domain "")
              [] (mkCounters 0 0 0) afterShop eq_refl Hmarked)
    as (_ & _ & Hone & Hsmall).
  split; [exact E|]. split; [exact Hrest|]. split; [exact Hone | exact Hsmall].
Defined.

(** ** Further concrete runs *)

Import Fixture.

(** A pass over [mixed]: the stopped application and the one without
    bindings are skipped, and the hostless binding of [web] fails. *)
Example mixed_pass_report :
  history (snd (syncApps lower decodeMixed yaml ok (NewDockOtter cfg)))
  = [ Sent (GET dokployClient "http://dokploy:3000/api/projects") ]
    ++ accepted "web-a-example-com" "a.example.com"
    ++ accepted "jobs-b-example-com" "b.example.com"
    ++ [ SyncCompleted 2 2 1 ].
Proof. vm_compute. reflexivity. Qed.

(** A retry count that does not parse is taken as 3, and the loaded
    configuration is let through. *)
Example unparsable_retry_is_default :
  RetryAttempts (loadConfig env noParse noParse noParse) = 3
  /\ validateConfig (loadConfig env noParse noParse noParse) = None.
Proof. split; reflexivity. Qed.

(** Single-pass mode with every binding failing still ends with code 0;
    with the source down it ends with code 1. *)
Example single_pass_exit_codes :
  fst (main lower decode yaml up ["dock-otter"] (HttpResponse 200 "") cfgForce []) = Exit 0
  /\ fst (main lower decode yaml down ["dock-otter"] (HttpResponse 200 "") cfgForce [])
     = Exit 1
  /\ main lower decode yaml up ["dock-otter"; "--health-check"] (HttpResponse 503 "")
       cfgForce []
     = (Exit 1, None).
Proof. repeat split; vm_compute; reflexivity. Qed.

Lemma sync_report_adds_up_witness :
  exists p e : nat,
    (p + e = length (eligibleBindings mixed))%nat
    /\ syncApps lower decodeMixed yaml ok (NewDockOtter cfg)
       = (None,
          record (SyncCompleted (Z.of_nat p) (Z.of_nat (length (skippedEntries mixed)))
                    (Z.of_nat e))
            (snd (processBindings lower yaml ok (eligibleBindings mixed)
                    (mkCounters 0 0 0) fetchedMixed))).
Proof.
  apply (sync_report_adds_up lower decodeMixed yaml ok mixed (NewDockOtter cfg) fetchedMixed).
  - vm_compute. reflexivity.
  - vm_compute. reflexivity.
  - vm_compute. reflexivity.
Defined.

Lemma second_pass_changes_nothing_witness :
  snd (rangeProjects lower yaml ok mixed (mkCounters 0 0 0)
         (snd (rangeProjects lower yaml ok mixed (mkCounters 0 0 0) (NewDockOtter cfg))))
  = snd (rangeProjects lower yaml ok mixed (mkCounters 0 0 0) (NewDockOtter cfg)).
Proof.
  apply (second_pass_changes_nothing lower decodeMixed yaml ok mixed (mkCounters 0 0 0)
           (mkCounters 0 0 0) (NewDockOtter cfg)).
  - intros bp d. reflexivity.
  - cbn. lia.
  - reflexivity.
Defined.

Lemma nothing_is_undone_witness :
  config afterPass = config afterShop
  /\ (exists evs, history afterPass = history afterShop ++ evs)
  /\ (forall name, isProcessed afterShop name = true -> isProcessed afterPass name = true).
Proof.
  apply (nothing_is_undone lower decode yaml up afterShop afterPass).
  apply rtc_once, afterPass_step.
Defined.

Lemma afterPass_reachable : rtc (step lower decode yaml up) (NewDockOtter cfg) afterPass.
Proof.
  apply rtc_l with afterShop; [apply afterShop_step|].
  apply rtc_once, afterPass_step.
Qed.

Lemma marked_only_when_accepted_witness :
  In "jobs-b-example-com" (publishedNames (history afterPass)).
Proof.
  apply (marked_only_when_accepted lower decode yaml up cfg afterPass afterPass_reachable
           "jobs-b-example-com").
  vm_compute. reflexivity.
Defined.

Lemma only_well_formed_blueprints_witness :
  Forall (fun a => wellFormed (fst a)) (attempts (history afterPass)).
Proof.
  apply (only_well_formed_blueprints lower decode yaml up cfg afterPass afterPass_reachable).
Defined.

Lemma no_attempt_configured_witness :
  createBlueprintWithRetry yaml ok
    (blueprintFor "web-a-example-com" web (domain "a.example.com") 443)
    (NewDockOtter cfgZero)
  = (Some (AllAttemptsFailed 0 None), NewDockOtter cfgZero)
  /\ forall (app : DokployApp) (domain : DokployDomain),
       Domain_Host domain <> "" ->
       negb (ForceSync (config (NewDockOtter cfgZero)))
       && isProcessed (NewDockOtter cfgZero)
            (generateResourceName lower (App_Name app) (Domain_Host domain)) = false ->
       processAppDomain lower yaml ok app domain (NewDockOtter cfgZero)
       = (Some (FailedToCreateBlueprint (AllAttemptsFailed 0 None)), NewDockOtter cfgZero).
Proof.
  apply (no_attempt_configured lower yaml ok
           (blueprintFor "web-a-example-com" web (domain "a.example.com") 443)
           (NewDockOtter cfgZero)).
  cbn. lia.
Defined.

Lemma resource_name_shape_witness :
  allBytes labelByte (generateResourceName lower "My_App" "Example.COM") = true
  /\ String.length (generateResourceName lower "My_App" "Example.COM")
     = Nat.min 63 (String.length "My_App" + 1 + String.length "Example.COM").
Proof.
  apply (resource_name_shape lower "My_App" "Example.COM"); reflexivity.
Defined.

Lemma names_collide_up_to_folding_witness :
  generateResourceName lower "My_App" "api.example.com"
  = generateResourceName lower "my-app" "API-Example_Com".
Proof.
  apply (names_collide_up_to_folding lower "My_App" "my-app"
           "api.example.com" "API-Example_Com"); reflexivity.
Defined.

Lemma long_name_hides_host_witness :
  generateResourceName lower longName "a.example.com"
  = firstBytes 63 (strings.mapBytes folded longName)
  /\ generateResourceName lower longName "a.example.com"
     = generateResourceName lower longName "b.example.com".
Proof.
  apply (long_name_hides_host lower longName "a.example.com" "b.example.com");
    try reflexivity.
  vm_compute. lia.
Defined.

Lemma Run_is_test_then_passes_witness :
  Run lower decode yaml up (repeat Ticked 2 ++ Cancelled :: [Ticked]) (NewDockOtter cfg)
  = (Returned None,
     passes lower decode yaml up 3
       (snd (testConnectivity decode up (NewDockOtter cfg))))
  /\ Run lower decode yaml up (repeat Ticked 2) (NewDockOtter cfg)
     = (Waiting,
        passes lower decode yaml up 3
          (snd (testConnectivity decode up (NewDockOtter cfg)))).
Proof.
  apply (Run_is_test_then_passes lower decode yaml up (NewDockOtter cfg) 2 [Ticked]).
  cbn. lia.
Defined.

Lemma requests_stay_within_bounds_witness :
  Forall (allowedRequest cfg) (requests (history afterPass)).
Proof.
  apply (requests_stay_within_bounds lower decode yaml up cfg afterPass afterPass_reachable).
Defined.

(** ** The hostless binding after a colliding one *)

(** C9 fails as stated: [crowded] has a name of 65 bytes, so its three
    bindings derive the same resource name.  On a fresh ledger, with every
    entry eligible and a target that accepts, the binding for
    "a.example.com" is published and marks the name; the hostless binding
    that follows is then returned with [nil], as is the third, and the pass
    logs processed 3, skipped 0, errors 0. *)
Lemma hostless_binding_counted_processed :
  processedApps (NewDockOtter cfg) = ∅
  /\ Forall (fun app => eligible app = true) (entries crowdedInventory)
  /\ map emptyHost (bindings crowdedInventory) = [false; true; false]
  /\ alwaysAccepts yaml ok
  /\ syncApps lower decodeCrowded yaml ok (NewDockOtter cfg)
     = (None,
        {| config := cfg;
           processedApps :=
             {[ "customer-portal-backend-service-production-region-eu-west-blue-" := true ]};
           history :=
             [ Sent (GET dokployClient "http://dokploy:3000/api/projects") ]
             ++ accepted "customer-portal-backend-service-production-region-eu-west-blue-"
                  "a.example.com"
             ++ [ SyncCompleted 3 0 0 ] |}).
Proof.
  split; [reflexivity|]. split; [repeat constructor|]. split; [reflexivity|].
  split; [intros bp d; reflexivity|].
  vm_compute. reflexivity.
Qed.

Lemma partial_failure_isolation_witness :
  exists d2 d3,
    rangeProjects lower yaml up inventory (mkCounters 0 0 0) fetched
    = (mkCounters 2 0 1, d2)
    /\ syncApps lower decode yaml up (NewDockOtter cfg) = (None, d3)
    /\ history d3 = history d2 ++ [SyncCompleted 2 0 1].
Proof.
  apply (partial_failure_isolation lower decode yaml up inventory (NewDockOtter cfg) fetched
           [(web, domain "a.example.com")] [(jobs, domain "b.example.com")]
           (web, domain "")).
  - reflexivity.
  - cbn. lia.
  - intros bp d. reflexivity.
  - vm_compute. reflexivity.
  - repeat constructor.
  - reflexivity.
  - reflexivity.
  - repeat constructor.
  - reflexivity.
  - right. constructor; [|constructor]. vm_compute. discriminate.
Defined.
